(** * Reviewed-preprints API: a shallow embedding of [src/app.ts] and
      [src/utils/content-to-html.ts], with the properties of its
      specification.

    The TypeScript sources are embedded function by function, under their
    own names.  What the sources take from the JavaScript runtime and from
    third-party packages (string joining, numbers, [Date], Express'
    response object, moment's strict date validation, [fetch]) is modelled
    in the modules [JS], [JSNumber], [JSDate], [Moment] and [Express]. *)

Set Warnings "-register-all".
From Stdlib Require Import ZArith String Ascii List Bool Lia DecimalString.
From stdpp Require Import base option list strings gmap.

Local Open Scope Z_scope.

(** ** Completions: a computation returns a value or throws *)

Inductive JSError :=
| TypeError (msg : string)
| RangeError (msg : string)
| SyntaxError (msg : string)
| ERR_HTTP_HEADERS_SENT
| Error (msg : string).

Inductive completion (A : Type) :=
| Normal (a : A)
| Throw (e : JSError).
Arguments Normal {A} a.
Arguments Throw {A} e.

Definition completion_bind {A B} (f : A -> completion B) (m : completion A)
  : completion B :=
  match m with
  | Normal a => f a
  | Throw e => Throw e
  end.

#[export] Instance completion_ret : MRet completion := fun _ a => Normal a.
#[export] Instance completion_mbind : MBind completion :=
  fun _ _ f m => completion_bind f m.

(** ** Strings and arrays of the runtime *)

Module JS.

(** A string is truthy when it is not empty. *)
Definition truthy (s : string) : bool := negb (String.eqb s "").

(** [Array.prototype.join] on an array of strings. *)
Fixpoint join (sep : string) (l : list string) : string :=
  match l with
  | [] => ""
  | x :: rest =>
      match rest with
      | [] => x
      | _ :: _ => x +:+ sep +:+ join sep rest
      end
  end.

(** An array slot that holds a string, [null] or [undefined]. *)
Inductive slot :=
| Str (s : string)
| Null
| Undefined.

(** [a[i]]: reading past the end of an array gives [undefined]. *)
Definition at_index (a : list string) (i : nat) : slot :=
  match a !! i with
  | Some s => Str s
  | None => Undefined
  end.

Definition is_null (a : slot) : bool :=
  match a with Null => true | _ => false end.

(** [join] turns [null] and [undefined] into the empty string. *)
Definition slot_to_string (a : slot) : string :=
  match a with Str s => s | Null | Undefined => "" end.

Definition join_slots (sep : string) (l : list slot) : string :=
  join sep (map slot_to_string l).

(** [x.prop] where [x] is [a[i]]: dereferencing [undefined] throws. *)
Definition deref {A} (a : list A) (i : nat) : completion A :=
  match a !! i with
  | Some x => Normal x
  | None => Throw (TypeError "Cannot read properties of undefined")
  end.

(** [Array.prototype.includes] on strings. *)
Definition includes (l : list string) (s : string) : bool :=
  existsb (String.eqb s) l.

(** [String.prototype.padStart]. *)
Fixpoint repeat_string (fill : string) (n : nat) : string :=
  match n with
  | O => ""
  | S n' => fill +:+ repeat_string fill n'
  end.

Definition padStart (s : string) (targetLength : nat) (fill : string)
  : string :=
  let len := String.length s in
  if ((targetLength <=? len)%nat || String.eqb fill "")%bool then s
  else
    let fillLen := (targetLength - len)%nat in
    String.substring 0 fillLen (repeat_string fill fillLen) +:+ s.

(** [s.split(sep)[0]] for a one-character separator: what stands before
    the first separator, the whole string when there is none. *)
Fixpoint split_first (sep : ascii) (s : string) : string :=
  match s with
  | EmptyString => ""
  | String c rest =>
      if Ascii.eqb c sep then "" else String c (split_first sep rest)
  end.

End JS.

(** ** Rich text *)

(** Modelled from the spec: the type [Content] of [types/content], which is
    not among the sources.  A content value is absent, a plain string, an
    ordered sequence of content values, or a node that carries a [type] tag
    and nested content; the tag is any string, so that unknown variants can
    be written. *)
Inductive Content :=
| CUndefined
| CText (s : string)
| CArray (parts : list Content)
| CNode (type : string) (content : Content).

Fixpoint contentToHtml (content : Content) : string :=
  match content with
  | CUndefined => ""
  | CText s => s
  | CArray parts => JS.join "" (map contentToHtml parts)
  | CNode type inner =>
      if String.eqb type "Paragraph" then
        "<p>" +:+ contentToHtml inner +:+ "</p>"
      else if String.eqb type "Emphasis" then
        "<em>" +:+ contentToHtml inner +:+ "</em>"
      else if String.eqb type "Strong" then
        "<strong>" +:+ contentToHtml inner +:+ "</strong>"
      else if String.eqb type "NontextualAnnotation" then
        "<u>" +:+ contentToHtml inner +:+ "</u>"
      else if String.eqb type "Superscript" then
        "<sup>" +:+ contentToHtml inner +:+ "</sup>"
      else if String.eqb type "Subscript" then
        "<sub>" +:+ contentToHtml inner +:+ "</sub>"
      else ""
  end.

(** ** Authors *)

(** Modelled from the spec: the type [Author] of [types/author], which is
    not among the sources.  An author has an optional sequence of given
    names and an optional sequence of family names. *)
Record Author := {
  givenNames : option (list string);
  familyNames : option (list string);
}.

Definition prepareAuthor (author : Author) : string :=
  let given := JS.join " " (default [] (givenNames author)) in
  let family := JS.join " " (default [] (familyNames author)) in
  given +:+ (if JS.truthy family then " " else "") +:+ family.

Definition prepareAuthorLine (authors : list Author)
  : completion (option string) :=
  if (length authors =? 0)%nat then Normal None
  else
    let authorLine : list string := [] in
    authorLine ←
      (if (0 <? length authors)%nat
       then a ← JS.deref authors 0; Normal (authorLine ++ [prepareAuthor a])
       else Normal authorLine);
    authorLine ←
      (if (1 <? length authors)%nat
       then a ← JS.deref authors 1; Normal (authorLine ++ [prepareAuthor a])
       else Normal authorLine);
    authorLine ←
      (if (2 <? length authors)%nat
       then a ← JS.deref authors (length authors - 1);
            Normal (authorLine ++ [prepareAuthor a])
       else Normal authorLine);
    Normal (Some (JS.join_slots
      (if (3 <? length authors)%nat then " ... " else ", ")
      (List.filter (fun a => negb (JS.is_null a))
         [JS.Str (JS.join ", " (take 2 authorLine));
          if (2 <? length authorLine)%nat
          then JS.at_index authorLine 2 else JS.Null]))).

(** ** Numbers of the runtime

    A finite number [Fin m k] denotes the decimal [m / 10^k], kept in
    lowest terms ([k = 0] or [m] not a multiple of ten), so that two finite
    numbers are equal exactly when they denote the same value.  The model
    keeps the decimal a literal denotes and applies the binary64 limits
    (overflow to an infinity, underflow to zero); it does not round the
    53-bit significand, so it agrees with the runtime on every literal of
    at most 15 significant digits and on every integer below [2^53].
    Positive and negative zero are not told apart (the sources never
    divide by them). *)

Module JSNumber.

Inductive number :=
| NaN
| Infinity (negative : bool)
| Fin (m : Z) (k : nat).

Definition of_Z (z : Z) : number := Fin z 0.

Fixpoint norm (m : Z) (k : nat) : number :=
  match k with
  | O => Fin m 0
  | S k' => if m mod 10 =? 0 then norm (m / 10) k' else Fin m k
  end.

(** [m * 10^e] as a number, with the binary64 limits. *)
Definition of_decimal (m e : Z) : number :=
  let a := Z.abs m in
  if 0 <=? e then
    if 2 ^ 1024 - 2 ^ 970 <=? a * 10 ^ e
    then Infinity (m <? 0) else Fin (m * 10 ^ e) 0
  else
    let d := 10 ^ (- e) in
    if (2 ^ 1024 - 2 ^ 970) * d <=? a then Infinity (m <? 0)
    else if a * 2 ^ 1075 <=? d then Fin 0 0
    else norm m (Z.to_nat (- e)).

(** *** Characters *)

Definition is_whitespace (c : ascii) : bool :=
  let n := nat_of_ascii c in
  ((n =? 32) || ((9 <=? n) && (n <=? 13)))%nat.

Definition digit_value (c : ascii) : option Z :=
  let n := Z.of_nat (nat_of_ascii c) in
  if (48 <=? n) && (n <=? 57) then Some (n - 48)
  else if (97 <=? n) && (n <=? 102) then Some (n - 87)
  else if (65 <=? n) && (n <=? 70) then Some (n - 55)
  else None.

Definition is_digit (radix : Z) (c : ascii) : bool :=
  match digit_value c with
  | Some d => d <? radix
  | None => false
  end.

Fixpoint trim_start (s : string) : string :=
  match s with
  | String c rest => if is_whitespace c then trim_start rest else s
  | EmptyString => s
  end.

Definition rev_string (s : string) : string :=
  string_of_list_ascii (rev (list_ascii_of_string s)).

Definition trim (s : string) : string :=
  rev_string (trim_start (rev_string (trim_start s))).

(** The longest prefix of digits of the radix, and what follows it. *)
Fixpoint span_digits (radix : Z) (s : string) : string * string :=
  match s with
  | String c rest =>
      if is_digit radix c
      then let '(ds, tl) := span_digits radix rest in (String c ds, tl)
      else ("", s)
  | EmptyString => ("", "")
  end.

(** The value of a string of digits, most significant digit first. *)
Fixpoint digits_value (radix : Z) (acc : Z) (s : string) : Z :=
  match s with
  | String c rest =>
      digits_value radix (acc * radix + default 0 (digit_value c)) rest
  | EmptyString => acc
  end.

(** *** [StringToNumber] *)

(** An optional sign: the sign read and the rest of the string. *)
Definition read_sign (s : string) : bool * string :=
  match s with
  | String "-" rest => (true, rest)
  | String "+" rest => (false, rest)
  | _ => (false, s)
  end.

(** [e] or [E], an optional sign and digits up to the end of the string. *)
Definition read_exponent (s : string) : option Z :=
  match s with
  | EmptyString => Some 0
  | String c rest =>
      if (Ascii.eqb c "e" || Ascii.eqb c "E")%bool then
        let '(neg, rest) := read_sign rest in
        let '(ds, tl) := span_digits 10 rest in
        if (String.eqb ds "" || negb (String.eqb tl ""))%bool then None
        else Some (if neg then - digits_value 10 0 ds
                   else digits_value 10 0 ds)
      else None
  end.

(** An unsigned decimal literal: digits, an optional fraction, an optional
    exponent.  At least one digit stands before or after the point. *)
Definition read_decimal (neg : bool) (s : string) : number :=
  let '(ip, tl) := span_digits 10 s in
  let '(fp, tl) :=
    match tl with
    | String "." rest => span_digits 10 rest
    | _ => ("", tl)
    end in
  if (String.eqb ip "" && String.eqb fp "")%bool then NaN
  else
    match read_exponent tl with
    | None => NaN
    | Some e =>
        let m := digits_value 10 0 (ip +:+ fp) in
        of_decimal (if neg then - m else m)
                   (e - Z.of_nat (String.length fp))
    end.

(** A literal in radix 2, 8 or 16, after its two-character prefix. *)
Definition read_radix (radix : Z) (s : string) : number :=
  let '(ds, tl) := span_digits radix s in
  if (String.eqb ds "" || negb (String.eqb tl ""))%bool then NaN
  else of_decimal (digits_value radix 0 ds) 0.

Definition StringToNumber (s : string) : number :=
  let t := trim s in
  match t with
  | EmptyString => Fin 0 0
  | String "0" (String "x" rest) | String "0" (String "X" rest) =>
      read_radix 16 rest
  | String "0" (String "o" rest) | String "0" (String "O" rest) =>
      read_radix 8 rest
  | String "0" (String "b" rest) | String "0" (String "B" rest) =>
      read_radix 2 rest
  | _ =>
      let '(neg, rest) := read_sign t in
      if String.eqb rest "Infinity" then Infinity neg
      else read_decimal neg rest
  end.

(** *** [parseInt(string, 10)] *)

Definition parseInt10 (s : string) : number :=
  let '(neg, rest) := read_sign (trim_start s) in
  let '(ds, _) := span_digits 10 rest in
  if String.eqb ds "" then NaN
  else
    let m := digits_value 10 0 ds in
    of_decimal (if neg then - m else m) 0.

(** *** [Number.prototype.toString] *)

Definition digits (z : Z) : string :=
  NilEmpty.string_of_uint (N.to_uint (Z.to_N z)).

Fixpoint zeros (n : nat) : string :=
  match n with
  | O => ""
  | S n' => String "0" (zeros n')
  end.

(** Trailing zeros of a positive integer are dropped: [s] and their count. *)
Fixpoint strip_zeros (fuel : nat) (s : Z) (z : Z) : Z * Z :=
  match fuel with
  | O => (s, z)
  | S fuel' =>
      if (s mod 10 =? 0) && negb (s =? 0)
      then strip_zeros fuel' (s / 10) (z + 1)
      else (s, z)
  end.

(** The decimal form of the positive value [s * 10^(n - k)], where [ds]
    holds the [k] digits of [s]. *)
Definition positive_to_string (ds : string) (n : Z) : string :=
  let k := Z.of_nat (String.length ds) in
  if (k <=? n) && (n <=? 21) then
    ds +:+ zeros (Z.to_nat (n - k))
  else if (0 <? n) && (n <=? 21) then
    String.substring 0 (Z.to_nat n) ds +:+ "." +:+
    String.substring (Z.to_nat n) (Z.to_nat (k - n)) ds
  else if (-6 <? n) && (n <=? 0) then
    "0." +:+ zeros (Z.to_nat (- n)) +:+ ds
  else
    let e := n - 1 in
    let exponent :=
      "e" +:+ (if 0 <=? e then "+" else "-") +:+ digits (Z.abs e) in
    if k =? 1 then ds +:+ exponent
    else String.substring 0 1 ds +:+ "." +:+
         String.substring 1 (Z.to_nat (k - 1)) ds +:+ exponent.

Definition toString (x : number) : string :=
  match x with
  | NaN => "NaN"
  | Infinity false => "Infinity"
  | Infinity true => "-Infinity"
  | Fin m k =>
      if m =? 0 then "0"
      else
        let a := Z.abs m in
        let '(s, z) :=
          match k with
          | O => strip_zeros (String.length (digits a)) a 0
          | S _ => (a, 0)
          end in
        let ds := digits s in
        let n := Z.of_nat (String.length ds) + z - Z.of_nat k in
        (if m <? 0 then "-" else "") +:+ positive_to_string ds n
  end.

(** *** Arithmetic and comparison *)

Definition add (x y : number) : number :=
  match x, y with
  | NaN, _ | _, NaN => NaN
  | Infinity a, Infinity b => if Bool.eqb a b then Infinity a else NaN
  | Infinity a, Fin _ _ | Fin _ _, Infinity a => Infinity a
  | Fin m1 k1, Fin m2 k2 =>
      let k := Nat.max k1 k2 in
      norm (m1 * 10 ^ Z.of_nat (k - k1) + m2 * 10 ^ Z.of_nat (k - k2)) k
  end.

(** [x < y]; every comparison with [NaN] is false. *)
Definition lt (x y : number) : bool :=
  match x, y with
  | NaN, _ | _, NaN => false
  | Infinity a, Infinity b => a && negb b
  | Infinity a, Fin _ _ => a
  | Fin _ _, Infinity b => negb b
  | Fin m1 k1, Fin m2 k2 =>
      m1 * 10 ^ Z.of_nat k2 <? m2 * 10 ^ Z.of_nat k1
  end.

Definition eq (x y : number) : bool :=
  match x, y with
  | NaN, _ | _, NaN => false
  | Infinity a, Infinity b => Bool.eqb a b
  | Fin m1 k1, Fin m2 k2 =>
      m1 * 10 ^ Z.of_nat k2 =? m2 * 10 ^ Z.of_nat k1
  | _, _ => false
  end.

Definition le (x y : number) : bool := lt x y || eq x y.
Definition gt (x y : number) : bool := lt y x.

End JSNumber.


(** ** Dates of the runtime

    A [Date] object is its time value: milliseconds since the epoch, or
    [None] for an invalid date ([NaN]).  Days, years and months follow the
    definitions of the ECMAScript specification (clause 21.4.1).  Local time
    is UTC shifted by a fixed offset [LocalTZA]; daylight saving is not
    modelled. *)

Module JSDate.
Import JSNumber.

Definition Date := option Z.

Definition msPerDay : Z := 86400000.
Definition msPerHour : Z := 3600000.
Definition msPerMinute : Z := 60000.
Definition msPerSecond : Z := 1000.

Definition Day (t : Z) : Z := t / msPerDay.
Definition TimeWithinDay (t : Z) : Z := t mod msPerDay.

Definition DaysInYear (y : Z) : Z :=
  if negb (y mod 4 =? 0) then 365
  else if negb (y mod 100 =? 0) then 366
  else if negb (y mod 400 =? 0) then 365
  else 366.

Definition DayFromYear (y : Z) : Z :=
  365 * (y - 1970) + (y - 1969) / 4 - (y - 1901) / 100 + (y - 1601) / 400.

Definition TimeFromYear (y : Z) : Z := msPerDay * DayFromYear y.

(** The largest year [y] with [TimeFromYear y <= t]: an estimate from the
    mean length of a year, moved by at most one year. *)
Definition YearFromTime (t : Z) : Z :=
  let d := Day t in
  let y := 1970 + d * 400 / 146097 in
  if d <? DayFromYear y then y - 1
  else if DayFromYear (y + 1) <=? d then y + 1
  else y.

Definition InLeapYear (t : Z) : Z :=
  if DaysInYear (YearFromTime t) =? 366 then 1 else 0.

Definition DayWithinYear (t : Z) : Z :=
  Day t - DayFromYear (YearFromTime t).

Definition MonthFromTime (t : Z) : Z :=
  let d := DayWithinYear t in
  let leap := InLeapYear t in
  if d <? 31 then 0
  else if d <? 59 + leap then 1
  else if d <? 90 + leap then 2
  else if d <? 120 + leap then 3
  else if d <? 151 + leap then 4
  else if d <? 181 + leap then 5
  else if d <? 212 + leap then 6
  else if d <? 243 + leap then 7
  else if d <? 273 + leap then 8
  else if d <? 304 + leap then 9
  else if d <? 334 + leap then 10
  else 11.

(** The day of the year on which a month starts. *)
Definition month_start (month leap : Z) : Z :=
  if month =? 0 then 0
  else if month =? 1 then 31
  else if month =? 2 then 59 + leap
  else if month =? 3 then 90 + leap
  else if month =? 4 then 120 + leap
  else if month =? 5 then 151 + leap
  else if month =? 6 then 181 + leap
  else if month =? 7 then 212 + leap
  else if month =? 8 then 243 + leap
  else if month =? 9 then 273 + leap
  else if month =? 10 then 304 + leap
  else 334 + leap.

Definition DateFromTime (t : Z) : Z :=
  DayWithinYear t - month_start (MonthFromTime t) (InLeapYear t) + 1.

Definition HourFromTime (t : Z) : Z := (t / msPerHour) mod 24.
Definition MinFromTime (t : Z) : Z := (t / msPerMinute) mod 60.
Definition SecFromTime (t : Z) : Z := (t / msPerSecond) mod 60.
Definition msFromTime (t : Z) : Z := t mod msPerSecond.

(** [MakeDay]: the day number of the [date]-th day of a month; months and
    dates out of range carry over. *)
Definition MakeDay (year month date : Z) : Z :=
  let ym := year + month / 12 in
  let mn := month mod 12 in
  DayFromYear ym
  + month_start mn (if DaysInYear ym =? 366 then 1 else 0)
  + date - 1.

Definition MakeDate (day time : Z) : Z := day * msPerDay + time.

Definition TimeClip (t : Z) : Date :=
  if 8640000000000000 <? Z.abs t then None else Some t.

(** [ToIntegerOrInfinity] on a finite number: the fraction is dropped. *)
Definition to_integer (x : number) : option Z :=
  match x with
  | Fin m k => Some (Z.quot m (10 ^ Z.of_nat k))
  | _ => None
  end.

(** [new Date(value)] for a number. *)
Definition of_number (x : number) : Date :=
  match to_integer x with
  | Some t => TimeClip t
  | None => None
  end.

(** The time value of a date as a number. *)
Definition to_number (d : Date) : number :=
  match d with
  | Some t => of_Z t
  | None => NaN
  end.

(** [new Date(value)] for a [Date]: the same time value. *)
Definition of_date (d : Date) : Date := d.

(** [new Date(value)] for a [Date] or [null]: [null] converts to the
    number zero, the epoch. *)
Definition of_nullable_date (d : option Date) : Date :=
  match d with
  | Some d => of_date d
  | None => of_number (of_Z 0)
  end.

Definition getter (f : Z -> Z) (d : Date) : number :=
  match d with
  | Some t => of_Z (f t)
  | None => NaN
  end.

Definition getUTCFullYear : Date -> number := getter YearFromTime.
Definition getUTCMonth : Date -> number := getter MonthFromTime.
Definition getUTCDate : Date -> number := getter DateFromTime.
Definition getUTCHours : Date -> number := getter HourFromTime.
Definition getUTCMinutes : Date -> number := getter MinFromTime.
Definition getUTCSeconds : Date -> number := getter SecFromTime.

(** [d.setDate(date)]: the day of the month of [d] in local time is
    replaced; the result is the new time value. *)
Definition setDate (LocalTZA : Z) (d : Date) (date : number) : number :=
  match d, to_integer date with
  | Some tv, Some dt =>
      let t := tv + LocalTZA in
      let newDate :=
        MakeDate (MakeDay (YearFromTime t) (MonthFromTime t) dt)
                 (TimeWithinDay t) in
      to_number (TimeClip (newDate - LocalTZA))
  | _, _ => NaN
  end.

(** [Date.parse].  The date-only form [YYYY-MM-DD] denotes midnight UTC of
    that day; a day number up to 31 is accepted in every month and carries
    over.  What any other string denotes is left to [fallback], the
    parser of the runtime. *)
Definition digit (c : ascii) : option Z :=
  if is_digit 10 c then digit_value c else None.

Definition parse (fallback : string -> Date) (s : string) : Date :=
  match s with
  | String y1 (String y2 (String y3 (String y4 (String "-"
      (String m1 (String m2 (String "-"
        (String d1 (String d2 EmptyString))))))))) =>
      match digit y1, digit y2, digit y3, digit y4,
            digit m1, digit m2, digit d1, digit d2 with
      | Some a, Some b, Some c, Some d, Some e, Some f, Some g, Some h =>
          let year := 1000 * a + 100 * b + 10 * c + d in
          let month := 10 * e + f in
          let day := 10 * g + h in
          if (1 <=? month) && (month <=? 12) && (1 <=? day) && (day <=? 31)
          then TimeClip (MakeDate (MakeDay year (month - 1) day) 0)
          else fallback s
      | _, _, _, _, _, _, _, _ => fallback s
      end
  | _ => fallback s
  end.

Definition pad (width : nat) (z : Z) : string :=
  JS.padStart (digits z) width "0".

(** [Date.prototype.toISOString]; an invalid date throws. *)
Definition toISOString (d : Date) : completion string :=
  match d with
  | None => Throw (RangeError "Invalid time value")
  | Some t =>
      let y := YearFromTime t in
      let year :=
        if (0 <=? y) && (y <=? 9999) then pad 4 y
        else (if y <? 0 then "-" else "+") +:+ pad 6 (Z.abs y) in
      Normal (year +:+ "-" +:+ pad 2 (MonthFromTime t + 1) +:+ "-" +:+
              pad 2 (DateFromTime t) +:+ "T" +:+
              pad 2 (HourFromTime t) +:+ ":" +:+
              pad 2 (MinFromTime t) +:+ ":" +:+
              pad 2 (SecFromTime t) +:+ "." +:+
              pad 3 (msFromTime t) +:+ "Z")
  end.

End JSDate.

(** ** moment's strict validation

    [moment(s, 'YYYY-MM-DD', true).isValid()]: the whole string is four
    digits, a dash, two digits, a dash and two digits, and names a month from
    1 to 12 and a day that exists in that month. *)

Module Moment.
Import JSNumber JSDate.

Definition daysInMonth (year month : Z) : Z :=
  if month =? 2 then (if DaysInYear year =? 366 then 29 else 28)
  else if (month =? 4) || (month =? 6) || (month =? 9) || (month =? 11)
  then 30 else 31.

Definition isValid (s : string) : bool :=
  match s with
  | String y1 (String y2 (String y3 (String y4 (String "-"
      (String m1 (String m2 (String "-"
        (String d1 (String d2 EmptyString))))))))) =>
      match digit y1, digit y2, digit y3, digit y4,
            digit m1, digit m2, digit d1, digit d2 with
      | Some a, Some b, Some c, Some d, Some e, Some f, Some g, Some h =>
          let year := 1000 * a + 100 * b + 10 * c + d in
          let month := 10 * e + f in
          let day := 10 * g + h in
          (1 <=? month) && (month <=? 12) &&
          (1 <=? day) && (day <=? daysInMonth year month)
      | _, _, _, _, _, _, _, _ => false
      end
  | _ => false
  end.

End Moment.

(** ** The data model of [app.ts] *)

Import JSNumber.

Record License := {
  license_type : string;
  license_url : option string;
  license_content : option Content;
}.

Record Heading := {
  heading_id : string;
  heading_text : Content;
}.

Record Reference := {
  reference_title : string;
}.

Record ProcessedArticle := {
  title : Content;
  authors : option (list Author);
  licenses : list License;
  headings : list Heading;
  references : list Reference;
}.

Record RelatedContent := {
  related_type : string;
  related_title : string;
  related_url : string;
  related_content : option string;
  related_imageUrl : option string;
}.

(** [published] is [Date | null]: [None] stands for [null]. *)
Record EnhancedArticleNoContent := {
  id : string;
  msid : string;
  doi : string;
  versionIdentifier : string;
  versionDoi : option string;
  preprintDoi : string;
  preprintUrl : string;
  preprintPosted : JSDate.Date;
  sentForReview : option JSDate.Date;
  published : option JSDate.Date;
  publishedYear : option number;
  volume : option string;
  eLocationId : option string;
  subjects : option (list string);
  pdfUrl : option string;
  relatedContent : option (list RelatedContent);
  article : ProcessedArticle;
  firstPublished : JSDate.Date;
}.

(** The [id] of a subject is [undefined] when its name is not in the
    table. *)
Record Subject := {
  subject_id : option string;
  subject_name : string;
}.

Record ReviewedPreprintSnippet := {
  snippet_id : string;
  snippet_doi : string;
  snippet_pdf : option string;
  snippet_status : string;
  snippet_authorLine : option string;
  snippet_title : option string;
  snippet_published : option string;
  snippet_reviewedDate : option string;
  snippet_versionDate : option string;
  snippet_statusDate : option string;
  snippet_stage : string;
  snippet_subjects : option (list Subject);
}.

(** What [writeResponse] sends: a problem ([BadRequestMessage]) or a list
    ([ReviewedPreprintListResponse]).  No handler sends the third member of
    the union, [ReviewedPreprintItemResponse]. *)
Inductive Message :=
| BadRequestMessage (title : string) (detail : option string)
| ReviewedPreprintListResponse (total : number)
                               (items : list ReviewedPreprintSnippet).

(** ** Express' response object

    The response of one request: whether the headers have gone out, the
    status code, the header fields and the JSON body.  Setting a header or
    sending a body after the headers have gone out throws, as Node does.
    Header values are kept as the handler passes them: the charset that
    Express appends to the content type and the headers it adds on its own
    are left out.
    The trace is ghost state: it records each call of [writeResponse] and
    each request sent to the upstream, so that statements can speak of what
    was executed. *)

Module Express.

Inductive HeaderValue :=
| HString (s : string)
| HList (l : list string).

Record Response := {
  headersSent : bool;
  statusCode : Z;
  headers : gmap string HeaderValue;
  body : option Message;
}.

Inductive Event :=
| WriteResponseCalled (statusCode : Z) (message : Message)
| Fetched (url : string).

Record World := {
  res : Response;
  trace : list Event;
}.

(** A handler step: it changes the world and returns or throws. *)
Definition IO (A : Type) : Type := World -> World * completion A.

Definition io_ret {A} (a : A) : IO A := fun w => (w, Normal a).

Definition io_bind {A B} (f : A -> IO B) (m : IO A) : IO B :=
  fun w =>
    match m w with
    | (w', Normal a) => f a w'
    | (w', Throw e) => (w', Throw e)
    end.

Definition lift {A} (c : completion A) : IO A := fun w => (w, c).

Definition log (e : Event) : IO unit :=
  fun w => ({| res := res w; trace := trace w ++ [e] |}, Normal tt).

Definition on_response (f : Response -> Response * completion unit)
  : IO unit :=
  fun w =>
    let '(r, c) := f (res w) in ({| res := r; trace := trace w |}, c).

(** [res.headersSent] *)
Definition get_headersSent : IO bool :=
  fun w => (w, Normal (headersSent (res w))).

(** [res.status(code)] *)
Definition status (code : Z) : IO unit :=
  on_response (fun r =>
    ({| headersSent := headersSent r; statusCode := code;
        headers := headers r; body := body r |}, Normal tt)).

(** [res.set({field: value, ...})] *)
Definition set (fields : list (string * HeaderValue)) : IO unit :=
  on_response (fun r =>
    if headersSent r then (r, Throw ERR_HTTP_HEADERS_SENT)
    else
      ({| headersSent := false; statusCode := statusCode r;
          headers := foldl (fun h kv => <[kv.1 := kv.2]> h)
                           (headers r) fields;
          body := body r |}, Normal tt)).

(** [res.json(message)]: the content type defaults to JSON, the body is
    written and the headers go out. *)
Definition json (message : Message) : IO unit :=
  on_response (fun r =>
    if headersSent r then (r, Throw ERR_HTTP_HEADERS_SENT)
    else
      ({| headersSent := true; statusCode := statusCode r;
          headers :=
            match headers r !! "Content-Type" with
            | Some _ => headers r
            | None =>
                <["Content-Type" := HString "application/json"]> (headers r)
            end;
          body := Some message |}, Normal tt)).

(** The response object a handler receives. *)
Definition fresh : World :=
  {| res := {| headersSent := false; statusCode := 200;
               headers := ∅; body := None |};
     trace := [] |}.

(** [req.query], each parameter given at most once, as a string. *)
Record Request := {
  query : gmap string string;
}.

End Express.

#[global] Typeclasses Opaque Express.IO.
#[export] Instance io_mret : MRet Express.IO := @Express.io_ret.
#[export] Instance io_mbind : MBind Express.IO := @Express.io_bind.

(** ** [app.ts] *)

Import Express.

Definition writeResponse (contentType : string) (statusCode : Z)
  (message : Message) : IO unit :=
  log (WriteResponseCalled statusCode message);;
  sent ← get_headersSent;
  if negb sent then
    status statusCode;;
    set [("Content-Type", HString contentType);
         ("Cache-Control",
          HString (if statusCode =? 200
                   then "max-age=300, public, stale-if-error=86400, stale-while-revalidate=300"
                   else "must-revalidate, no-cache, private"));
         ("Vary", HList ["Accept"; "Authorization"])];;
    json message
  else mret tt.

Definition errorBadRequest (message : string) : IO unit :=
  writeResponse "application/problem+json" 400
    (BadRequestMessage "bad request" (Some message)).

Definition errorNotFoundRequest : IO unit :=
  writeResponse "application/json" 404 (BadRequestMessage "not found" None).

(** [Param]: a string, a number or [null] (arrays do not occur, see
    [Request]). *)
Inductive Param :=
| PString (s : string)
| PNumber (n : number)
| PNull.

Definition queryParam (req : Request) (key : string) (defaultValue : Param)
  : Param :=
  match query req !! key with
  | Some s => PString s
  | None => defaultValue
  end.

(** [Number(v)] *)
Definition Number (v : Param) : number :=
  match v with
  | PString s => StringToNumber s
  | PNumber n => n
  | PNull => of_Z 0
  end.

(** [(v || fallback).toString()]: the empty string, zero, [NaN] and [null]
    are falsy. *)
Definition or_toString (v : Param) (fallback : string) : string :=
  match v with
  | PString s => if JS.truthy s then s else fallback
  | PNumber n =>
      if (JSNumber.eq n (of_Z 0) || negb (JSNumber.eq n n))%bool
      then fallback else toString n
  | PNull => fallback
  end.

(** The upstream's answer to [fetch(url)]: a network failure throws;
    [response.json()] throws on a body that is not JSON. *)
Record UpstreamResponse := {
  ok : bool;
  statusText : string;
  response_headers : gmap string string;
  response_json : completion (list EnhancedArticleNoContent);
}.

(** What the handler takes from outside: the clock ([new Date()]), the
    offset of local time, what [Date.parse] makes of a string that is not of
    the form [YYYY-MM-DD], and the upstream service. *)
Record Env := {
  now : Z;
  LocalTZA : Z;
  parse_fallback : string -> JSDate.Date;
  fetch : string -> completion UpstreamResponse;
}.

Record Versions := {
  total : number;
  items : list EnhancedArticleNoContent;
}.

(** The [url] that [fetchVersionsNoContent] builds.  [new Date()] is the
    clock of the environment. *)
Definition versions_url (env : Env) (page perPage : number)
  (order useDate startDate endDate : string) : completion string :=
  endDateQuery ←
    (if JS.truthy endDate then
       iso ← JSDate.toISOString
               (JSDate.of_number
                  (JSDate.setDate (LocalTZA env) (Some (now env))
                     (add (JSDate.getUTCDate
                             (JSDate.parse (parse_fallback env) endDate))
                          (of_Z 1))));
       Normal ("end-date=" +:+ JS.split_first "T" iso)
     else Normal "");
  Normal
    (JS.join ""
       ["http://wiremock:3000/api/preprints-no-content?";
        JS.join "&"
          (List.filter JS.truthy
             ["page=" +:+ toString page;
              "per-page=" +:+ toString perPage;
              "order=" +:+ order;
              if String.eqb useDate "published"
              then "use-date=firstPublished" else "";
              if JS.truthy startDate
              then "start-date=" +:+ startDate else "";
              endDateQuery])]).

Definition fetchVersionsNoContent (env : Env) (page perPage : number)
  (order useDate startDate endDate : string) : IO Versions :=
  url ← lift (versions_url env page perPage order useDate startDate endDate);
  log (Fetched url);;
  response ← lift (fetch env url);
  if negb (ok response) then
    lift (Throw (Error ("error fetching (" +:+ url +:+ "): "
                        +:+ statusText response)))
  else
    items ← lift (response_json response);
    let total :=
      match response_headers response !! "x-total-count" with
      | Some header =>
          if JS.truthy header then parseInt10 header
          else of_Z (Z.of_nat (length items))
      | None => of_Z (Z.of_nat (length items))
      end in
    mret {| total := total; items := items |}.

#[local] Notation "k ↦ v" := (@pair string string k v) (at level 50).

Definition msaNames : gmap string string :=
  list_to_map [
    "Biochemistry and Chemical Biology" ↦ "biochemistry-chemical-biology";
    "Cancer Biology" ↦ "cancer-biology";
    "Cell Biology" ↦ "cell-biology";
    "Chromosomes and Gene Expression" ↦ "chromosomes-gene-expression";
    "Computational and Systems Biology" ↦ "computational-systems-biology";
    "Developmental Biology" ↦ "developmental-biology";
    "Ecology" ↦ "ecology";
    "Epidemiology and Global Health" ↦ "epidemiology-global-health";
    "Evolutionary Biology" ↦ "evolutionary-biology";
    "Genetics and Genomics" ↦ "genetics-genomics";
    "Immunology and Inflammation" ↦ "immunology-inflammation";
    "Medicine" ↦ "medicine";
    "Microbiology and Infectious Disease" ↦ "microbiology-infectious-disease";
    "Neuroscience" ↦ "neuroscience";
    "Physics of Living Systems" ↦ "physics-living-systems";
    "Plant Biology" ↦ "plant-biology";
    "Stem Cells and Regenerative Medicine" ↦ "stem-cells-regenerative-medicine";
    "Structural Biology and Molecular Biophysics" ↦ "structural-biology-molecular-biophysics"
  ].

Definition getSubjects (subjectNames : list string) : list Subject :=
  map (fun subjectName =>
         {| subject_id := msaNames !! subjectName;
            subject_name := subjectName |})
      subjectNames.

Definition toIsoStringWithoutMilliseconds (date : JSDate.Date) : string :=
  let year := JSDate.getUTCFullYear date in
  let month :=
    JS.padStart (toString (add (JSDate.getUTCMonth date) (of_Z 1))) 2 "0" in
  let day := JS.padStart (toString (JSDate.getUTCDate date)) 2 "0" in
  let hours := JS.padStart (toString (JSDate.getUTCHours date)) 2 "0" in
  let minutes := JS.padStart (toString (JSDate.getUTCMinutes date)) 2 "0" in
  let seconds := JS.padStart (toString (JSDate.getUTCSeconds date)) 2 "0" in
  toString year +:+ "-" +:+ month +:+ "-" +:+ day +:+ "T" +:+
  hours +:+ ":" +:+ minutes +:+ ":" +:+ seconds +:+ "Z".

Definition enhancedArticleNoContentToSnippet (r : EnhancedArticleNoContent)
  : completion ReviewedPreprintSnippet :=
  authorLine ← prepareAuthorLine (default [] (authors (article r)));
  Normal
    {| snippet_id := msid r;
       snippet_doi := preprintDoi r;
       snippet_pdf := pdfUrl r;
       snippet_status := "reviewed";
       snippet_authorLine := authorLine;
       snippet_title := Some (contentToHtml (title (article r)));
       snippet_published :=
         Some (toIsoStringWithoutMilliseconds
                 (JSDate.of_date (firstPublished r)));
       snippet_reviewedDate :=
         Some (toIsoStringWithoutMilliseconds
                 (JSDate.of_date (firstPublished r)));
       snippet_versionDate :=
         Some (toIsoStringWithoutMilliseconds
                 (JSDate.of_nullable_date (published r)));
       snippet_statusDate :=
         Some (toIsoStringWithoutMilliseconds
                 (JSDate.of_nullable_date (published r)));
       snippet_stage := "published";
       snippet_subjects := Some (getSubjects (default [] (subjects r))) |}.

(** The conversion applied to [per-page] and [page]: the number itself when
    its decimal form reads back as the same integer, [-1] otherwise. *)
Definition integerOrMinusOne (v : Param) : number :=
  let n := Number v in
  if String.eqb (toString n) (toString (parseInt10 (toString n)))
  then n else of_Z (-1).

(** [app.get('/', ...)] *)
Definition app_get_list (env : Env) (req : Request) : IO unit :=
  let perPage := integerOrMinusOne (queryParam req "per-page" (PNumber (of_Z 20))) in
  let page := integerOrMinusOne (queryParam req "page" (PNumber (of_Z 1))) in
  let order := or_toString (queryParam req "order" PNull) "desc" in
  let useDate := or_toString (queryParam req "use-date" PNull) "default" in
  let startDate := or_toString (queryParam req "start-date" PNull) "" in
  let endDate := or_toString (queryParam req "end-date" PNull) "" in
  (if le page (of_Z 0) then
     errorBadRequest "expecting positive integer for 'page' parameter"
   else mret tt);;
  (if (le perPage (of_Z 0) || gt perPage (of_Z 100))%bool then
     errorBadRequest
       "expecting positive integer between 1 and 100 for 'per-page' parameter"
   else mret tt);;
  (if negb (JS.includes ["asc"; "desc"] order) then
     errorBadRequest "expecting either 'asc' or 'desc' for 'order' parameter"
   else mret tt);;
  (if negb (JS.includes ["default"; "published"] useDate) then
     errorBadRequest
       "expecting either 'default' or 'published' for 'use-date' parameter"
   else mret tt);;
  (if (JS.truthy startDate && negb (Moment.isValid startDate))%bool then
     errorBadRequest "expecting YYYY-MM-DD format for 'start-date' parameter"
   else mret tt);;
  (if (JS.truthy endDate && negb (Moment.isValid endDate))%bool then
     errorBadRequest "expecting YYYY-MM-DD format for 'end-date' parameter"
   else mret tt);;
  results ← fetchVersionsNoContent env page perPage order useDate
              startDate endDate;
  items ← lift (mapM enhancedArticleNoContentToSnippet (items results));
  writeResponse "application/vnd.elife.reviewed-preprint-list+json; version=1"
    200 (ReviewedPreprintListResponse (total results) items).

(** [app.get('/:id', ...)] *)
Definition app_get_item (req : Request) : IO unit :=
  errorNotFoundRequest.

(** ** The words of the specification

    Definitions that follow the specification rather than the sources; the
    theorems compare the sources with them. *)

(** The display form of an author: the given names joined by a single
    space, then, when the family names do not join to the empty string, a
    single space and the family names joined by a single space. *)
Definition display_form (author : Author) : string :=
  let given := String.concat " " (default [] (givenNames author)) in
  let family := String.concat " " (default [] (familyNames author)) in
  if String.eqb family "" then given else given +:+ " " +:+ family.

(** The HTML tag of each rich-text variant. *)
Definition html_tags : list (string * string) :=
  [("Paragraph", "p"); ("Emphasis", "em"); ("Strong", "strong");
   ("NontextualAnnotation", "u"); ("Superscript", "sup");
   ("Subscript", "sub")].

Definition tag_of (type : string) : option string :=
  snd <$> List.find (fun entry => String.eqb type (fst entry)) html_tags.

(** The character of a decimal digit. *)
Definition digit_char (d : Z) : ascii := ascii_of_nat (48 + Z.to_nat d).

(** A number below one hundred in two digits, a number below ten thousand
    in four. *)
Definition two_digits (n : Z) : string :=
  String (digit_char (n / 10)) (String (digit_char (n mod 10)) EmptyString).

Definition four_digits (n : Z) : string :=
  String (digit_char (n / 1000)) (String (digit_char (n / 100 mod 10))
    (String (digit_char (n / 10 mod 10))
       (String (digit_char (n mod 10)) EmptyString))).

(** [YYYY-MM-DDTHH:MM:SSZ], written out digit by digit. *)
Definition iso_seconds (year month day hours minutes seconds : Z) : string :=
  String (digit_char (year / 1000))
  (String (digit_char (year / 100 mod 10))
  (String (digit_char (year / 10 mod 10))
  (String (digit_char (year mod 10))
  (String "-"
  (String (digit_char (month / 10)) (String (digit_char (month mod 10))
  (String "-"
  (String (digit_char (day / 10)) (String (digit_char (day mod 10))
  (String "T"
  (String (digit_char (hours / 10)) (String (digit_char (hours mod 10))
  (String ":"
  (String (digit_char (minutes / 10)) (String (digit_char (minutes mod 10))
  (String ":"
  (String (digit_char (seconds / 10)) (String (digit_char (seconds mod 10))
  (String "Z" EmptyString))))))))))))))))))).

(** A string has the shape [dddd-dd-ddTdd:dd:ddZ], [d] a decimal digit. *)
Definition iso_shape (s : string) : bool :=
  let d := is_digit 10 in
  match s with
  | String y1 (String y2 (String y3 (String y4 (String "-"
    (String m1 (String m2 (String "-"
    (String d1 (String d2 (String "T"
    (String h1 (String h2 (String ":"
    (String n1 (String n2 (String ":"
    (String s1 (String s2 (String "Z" EmptyString))))))))))))))))))) =>
      d y1 && d y2 && d y3 && d y4 && d m1 && d m2 && d d1 && d d2 &&
      d h1 && d h2 && d n1 && d n2 && d s1 && d s2
  | _ => false
  end.

(** ** Notions for the statements about the handlers *)

(** The messages of the validation checks that fail on a request, in the
    order page, per-page, order, use-date, start-date, end-date: the
    conditions of [app_get_list], collected. *)
Definition validationErrors (req : Request) : list string :=
  let perPage :=
    integerOrMinusOne (queryParam req "per-page" (PNumber (of_Z 20))) in
  let page := integerOrMinusOne (queryParam req "page" (PNumber (of_Z 1))) in
  let order := or_toString (queryParam req "order" PNull) "desc" in
  let useDate := or_toString (queryParam req "use-date" PNull) "default" in
  let startDate := or_toString (queryParam req "start-date" PNull) "" in
  let endDate := or_toString (queryParam req "end-date" PNull) "" in
  map snd (List.filter fst
    [(le page (of_Z 0),
      "expecting positive integer for 'page' parameter");
     ((le perPage (of_Z 0) || gt perPage (of_Z 100))%bool,
      "expecting positive integer between 1 and 100 for 'per-page' parameter");
     (negb (JS.includes ["asc"; "desc"] order),
      "expecting either 'asc' or 'desc' for 'order' parameter");
     (negb (JS.includes ["default"; "published"] useDate),
      "expecting either 'default' or 'published' for 'use-date' parameter");
     ((JS.truthy startDate && negb (Moment.isValid startDate))%bool,
      "expecting YYYY-MM-DD format for 'start-date' parameter");
     ((JS.truthy endDate && negb (Moment.isValid endDate))%bool,
      "expecting YYYY-MM-DD format for 'end-date' parameter")]).

(** The 400 problem document of a validation message. *)
Definition problem (detail : string) : Message :=
  BadRequestMessage "bad request" (Some detail).

(** The response object once a message has been written to it. *)
Definition written (contentType : string) (code : Z) (message : Message)
  (r : Response) : Response :=
  {| headersSent := true;
     statusCode := code;
     headers :=
       <["Vary" := HList ["Accept"; "Authorization"]]>
         (<["Cache-Control" :=
              HString (if code =? 200
                       then "max-age=300, public, stale-if-error=86400, stale-while-revalidate=300"
                       else "must-revalidate, no-cache, private")]>
            (<["Content-Type" := HString contentType]> (headers r)));
     body := Some message |}.

(** The world after a call of [writeResponse]. *)
Definition after_write (contentType : string) (code : Z) (message : Message)
  (w : World) : World :=
  {| res := if headersSent (res w) then res w
            else written contentType code message (res w);
     trace := trace w ++ [WriteResponseCalled code message] |}.

(** The first call of [writeResponse] in a trace. *)
Definition first_write (events : list Event) : option (Z * Message) :=
  match List.filter (fun e => match e with
                              | WriteResponseCalled _ _ => true
                              | Fetched _ => false
                              end) events with
  | WriteResponseCalled code message :: _ => Some (code, message)
  | _ => None
  end.

(** What the client has received: nothing while the headers have not gone
    out, else the status code and the body. *)
Definition received (w : World) : option (Z * Message) :=
  if headersSent (res w) then
    match body (res w) with
    | Some message => Some (statusCode (res w), message)
    | None => None
    end
  else None.

(** ** Sample inputs *)

Definition jane : Author :=
  {| givenNames := Some ["Jane"]; familyNames := Some ["Doe"] |}.
Definition john : Author :=
  {| givenNames := Some ["John"; "Q"]; familyNames := Some ["Public"] |}.
Definition ada : Author :=
  {| givenNames := Some ["Ada"]; familyNames := None |}.
Definition grace : Author :=
  {| givenNames := Some ["Grace"]; familyNames := Some ["Hopper"] |}.
Definition alan : Author :=
  {| givenNames := None; familyNames := Some ["Turing"] |}.

(** A record published on 2023-05-01T12:30:45.678Z, first published a day
    earlier. *)
Definition sample_record : EnhancedArticleNoContent :=
  {| id := "85111v2"; msid := "85111"; doi := "10.7554/eLife.85111.2";
     versionIdentifier := "2"; versionDoi := None;
     preprintDoi := "10.1101/2022.11.08.515698";
     preprintUrl := "https://doi.org/10.1101/2022.11.08.515698";
     preprintPosted := Some 1667865600000; sentForReview := None;
     published := Some (Some 1682944245678); publishedYear := None;
     volume := None; eLocationId := None;
     subjects := Some ["Cell Biology"]; pdfUrl := None;
     relatedContent := None;
     article :=
       {| title := CArray [CText "A "; CNode "Emphasis" (CText "title")];
          authors := Some [jane; john; ada; grace];
          licenses := []; headings := []; references := [] |};
     firstPublished := Some 1682857845678 |}.

(** An upstream that answers every request with the two records [body] and
    the given [x-total-count] header. *)
Definition upstream (count : option string) (url : string)
  : completion UpstreamResponse :=
  Normal {| ok := true; statusText := "OK";
            response_headers :=
              match count with
              | Some c => {[ "x-total-count" := c ]}
              | None => ∅
              end;
            response_json := Normal [sample_record; sample_record] |}.

(** The clock stands at 2026-11-03T00:00:00Z and local time is UTC.  The
    fallback of [Date.parse] refuses every string: the samples hand it only
    strings that no runtime reads as a date. *)
Definition sample_env (count : option string) : Env :=
  {| now := 1793664000000; LocalTZA := 0;
     parse_fallback := fun _ => None; fetch := upstream count |}.

Definition request (params : list (string * string)) : Request :=
  {| query := list_to_map params |}.

(** ** What a handler can do to the world

    One step sends a request to the upstream or calls [writeResponse]. *)

Inductive step : World -> World -> Prop :=
| step_fetch (w : World) (url : string) :
    step w {| res := res w; trace := trace w ++ [Fetched url] |}
| step_write (w : World) (contentType : string) (code : Z)
    (message : Message) :
    step w (after_write contentType code message w).

(** A handler step of which every run is a sequence of such steps. *)
Definition io_steps {A} (m : IO A) : Prop :=
  forall w, rtc step w (fst (m w)).

(** The response object and the trace agree: the client has received the
    message of the first call of [writeResponse], and nothing when there was
    no call. *)
Definition consistent (w : World) : Prop :=
  match first_write (trace w) with
  | Some (code, message) =>
      headersSent (res w) = true /\ statusCode (res w) = code
      /\ body (res w) = Some message
  | None => headersSent (res w) = false
  end.

(** The world after the validation messages [errors] have been written. *)
Definition after_errors (errors : list string) (w : World) : World :=
  foldl (fun w detail =>
           after_write "application/problem+json" 400 (problem detail) w)
        w errors.

(** ** Notions for the statements about rich text *)

(** The strings of a content value, in reading order. *)
Fixpoint texts (content : Content) : list string :=
  match content with
  | CUndefined => []
  | CText s => [s]
  | CArray parts => concat (map texts parts)
  | CNode _ inner => texts inner
  end.

(** A content value without nodes: strings and sequences only. *)
Fixpoint plain (content : Content) : bool :=
  match content with
  | CUndefined | CText _ => true
  | CArray parts => forallb plain parts
  | CNode _ _ => false
  end.

(** ** Notions for the statements about the list handler *)

(** The parameters that [app_get_list] reads from a request. *)
Definition requestPerPage (req : Request) : number :=
  integerOrMinusOne (queryParam req "per-page" (PNumber (of_Z 20))).
Definition requestPage (req : Request) : number :=
  integerOrMinusOne (queryParam req "page" (PNumber (of_Z 1))).
Definition requestOrder (req : Request) : string :=
  or_toString (queryParam req "order" PNull) "desc".
Definition requestUseDate (req : Request) : string :=
  or_toString (queryParam req "use-date" PNull) "default".
Definition requestStartDate (req : Request) : string :=
  or_toString (queryParam req "start-date" PNull) "".
Definition requestEndDate (req : Request) : string :=
  or_toString (queryParam req "end-date" PNull) "".

(** The URL that [app_get_list] asks the upstream for. *)
Definition requestUrl (env : Env) (req : Request) : completion string :=
  versions_url env (requestPage req) (requestPerPage req) (requestOrder req)
    (requestUseDate req) (requestStartDate req) (requestEndDate req).

(** What [app_get_list] does once the checks are through. *)
Definition respond (env : Env) (req : Request) : IO unit :=
  results ← fetchVersionsNoContent env (requestPage req) (requestPerPage req)
              (requestOrder req) (requestUseDate req) (requestStartDate req)
              (requestEndDate req);
  items ← lift (mapM enhancedArticleNoContentToSnippet (items results));
  writeResponse "application/vnd.elife.reviewed-preprint-list+json; version=1"
    200 (ReviewedPreprintListResponse (total results) items).

(** The total that [fetchVersionsNoContent] takes from an upstream response
    with the given records. *)
Definition responseTotal (response : UpstreamResponse)
  (records : list EnhancedArticleNoContent) : number :=
  match response_headers response !! "x-total-count" with
  | Some header =>
      if JS.truthy header then parseInt10 header
      else of_Z (Z.of_nat (length records))
  | None => of_Z (Z.of_nat (length records))
  end.

(** Whether an event is a request to the upstream. *)
Definition is_fetch (e : Event) : bool :=
  match e with
  | Fetched _ => true
  | WriteResponseCalled _ _ => false
  end.

(** ** The earlier handler

    The file [src/utils/content-to-html.ts] ends with an earlier text of
    [app.ts]: [writeResponse] without the guard on [res.headersSent] and
    with a final [res.end()], and a list handler that validates the request
    and answers an empty list, unless a content type has been set.  Its
    functions are embedded in the module [Earlier], under their names. *)

(** [res.hasHeader(name)] *)
Definition hasHeader (name : string) : IO bool :=
  fun w => (w, Normal (bool_decide (is_Some (headers (res w) !! name)))).

(** [res.end()] without data: the headers go out if they have not yet; on
    a response that is finished nothing happens. *)
Definition end_ : IO unit :=
  on_response (fun r =>
    ({| headersSent := true; statusCode := statusCode r;
        headers := headers r; body := body r |}, Normal tt)).

Module Earlier.

Definition writeResponse (contentType : string) (statusCode : Z)
  (message : Message) : IO unit :=
  log (WriteResponseCalled statusCode message);;
  status statusCode;;
  set [("Content-Type", HString contentType);
       ("Cache-Control",
        HString (if statusCode =? 200
                 then "max-age=300, public, stale-if-error=86400, stale-while-revalidate=300"
                 else "must-revalidate, no-cache, private"));
       ("Vary", HList ["Accept"; "Authorization"])];;
  json message;;
  end_.

Definition errorBadRequest (message : string) : IO unit :=
  writeResponse "application/problem+json" 400
    (BadRequestMessage "bad request" (Some message)).

Definition errorNotFoundRequest : IO unit :=
  writeResponse "application/json" 404 (BadRequestMessage "not found" None).

(** [app.get('/', ...)] *)
Definition app_get_list (req : Request) : IO unit :=
  let perPage := integerOrMinusOne (queryParam req "per-page" (PNumber (of_Z 20))) in
  let page := integerOrMinusOne (queryParam req "page" (PNumber (of_Z 1))) in
  let order := or_toString (queryParam req "order" PNull) "desc" in
  let useDate := or_toString (queryParam req "use-date" PNull) "default" in
  let startDate := or_toString (queryParam req "start-date" PNull) "" in
  let endDate := or_toString (queryParam req "end-date" PNull) "" in
  (if le page (of_Z 0) then
     errorBadRequest "expecting positive integer for 'page' parameter"
   else mret tt);;
  (if (le perPage (of_Z 0) || gt perPage (of_Z 100))%bool then
     errorBadRequest
       "expecting positive integer between 1 and 100 for 'per-page' parameter"
   else mret tt);;
  (if negb (JS.includes ["asc"; "desc"] order) then
     errorBadRequest "expecting either 'asc' or 'desc' for 'order' parameter"
   else mret tt);;
  (if negb (JS.includes ["default"; "published"] useDate) then
     errorBadRequest
       "expecting either 'default' or 'published' for 'use-date' parameter"
   else mret tt);;
  (if (JS.truthy startDate && negb (Moment.isValid startDate))%bool then
     errorBadRequest "expecting YYYY-MM-DD format for 'start-date' parameter"
   else mret tt);;
  (if (JS.truthy endDate && negb (Moment.isValid endDate))%bool then
     errorBadRequest "expecting YYYY-MM-DD format for 'end-date' parameter"
   else mret tt);;
  contentType ← hasHeader "Content-Type";
  if negb contentType then
    writeResponse
      "application/vnd.elife.reviewed-preprint-list+json; version=1" 200
      (ReviewedPreprintListResponse (of_Z 0) [])
  else mret tt.

End Earlier.

(** * Properties *)

(** ** Strings *)

Lemma append_cons (c : ascii) (s1 s2 : string) :
  String c s1 +:+ s2 = String c (s1 +:+ s2).
Proof. reflexivity. Qed.

Lemma append_assoc (s1 s2 s3 : string) :
  (s1 +:+ s2) +:+ s3 = s1 +:+ s2 +:+ s3.
Proof.
  induction s1 as [|c s1 IH]; [reflexivity |].
  now rewrite !append_cons, IH.
Qed.

Lemma append_nil_r (s : string) : s +:+ "" = s.
Proof.
  induction s as [|c s IH]; [reflexivity |].
  now rewrite append_cons, IH.
Qed.

Lemma join_cons (sep x y : string) (l : list string) :
  JS.join sep (x :: y :: l) = x +:+ sep +:+ JS.join sep (y :: l).
Proof. reflexivity. Qed.

(** Joining with the empty separator is plain concatenation. *)
Lemma join_empty_sep (l : list string) :
  JS.join "" l = foldr String.append "" l.
Proof.
  induction l as [|x [|y l] IH].
  - reflexivity.
  - simpl. now rewrite append_nil_r.
  - rewrite join_cons, IH. reflexivity.
Qed.

(** ** The author line *)

Lemma deref_last {A} (l : list A) (z : A) :
  JS.deref (l ++ [z]) (length (l ++ [z]) - 1) = Normal z.
Proof.
  unfold JS.deref. rewrite length_app. simpl.
  replace (length l + 1 - 1)%nat with (length l) by lia.
  now rewrite list_lookup_middle.
Qed.

(** The author line of four or more authors: the third and the authors
    between it and the last do not matter. *)
Lemma prepareAuthorLine_many (a b c z : Author) (middle : list Author) :
  prepareAuthorLine (a :: b :: c :: middle ++ [z]) =
  Normal (Some ((prepareAuthor a +:+ ", " +:+ prepareAuthor b)
                +:+ " ... " +:+ prepareAuthor z)).
Proof.
  unfold prepareAuthorLine.
  pose proof (deref_last (a :: b :: c :: middle) z) as Hlast.
  change ((a :: b :: c :: middle) ++ [z]) with (a :: b :: c :: middle ++ [z])
    in Hlast.
  rewrite Hlast. clear Hlast.
  assert (Hlen : length (a :: b :: c :: middle ++ [z])
                 = S (S (S (S (length middle))))).
  { simpl. rewrite length_app. simpl. lia. }
  rewrite Hlen. reflexivity.
Qed.

(** Joining as the runtime does is the concatenation with a separator of
    the standard library. *)
Lemma join_concat (sep : string) (l : list string) :
  JS.join sep l = String.concat sep l.
Proof.
  induction l as [|x [|y l] IH]; [reflexivity | reflexivity |].
  rewrite join_cons, IH. reflexivity.
Qed.

(** [prepareAuthor] computes the display form of the specification. *)
Lemma prepareAuthor_is_display_form (author : Author) :
  prepareAuthor author = display_form author.
Proof.
  unfold display_form. cbv zeta.
  rewrite <- (join_concat " " (default [] (givenNames author))).
  rewrite <- (join_concat " " (default [] (familyNames author))).
  unfold prepareAuthor, JS.truthy. cbv zeta.
  destruct (String.eqb_spec (JS.join " " (default [] (familyNames author)))
              "") as [Hfamily | _]; cbn [negb]; [| reflexivity].
  rewrite Hfamily. now rewrite append_nil_r.
Qed.

(** C1.  The author line is absent for no author, the display form for one
    author, display forms joined by ", " for two and for three authors, and
    for four or more authors the first two display forms joined by ", ",
    then " ... ", then the display form of the last author, whoever stands
    in between.  The display form is that of the specification: Jane Doe
    alone gives "Jane Doe", and of four authors the third is skipped. *)
Theorem prepareAuthorLine_by_count :
  prepareAuthorLine [] = Normal None
  /\ (forall a, prepareAuthorLine [a] = Normal (Some (display_form a)))
  /\ (forall a b,
        prepareAuthorLine [a; b] =
        Normal (Some (String.concat ", " [display_form a; display_form b])))
  /\ (forall a b c,
        prepareAuthorLine [a; b; c] =
        Normal (Some (String.concat ", "
                        [display_form a; display_form b; display_form c])))
  /\ (forall a b c middle z,
        prepareAuthorLine (a :: b :: c :: middle ++ [z]) =
        Normal (Some (String.concat ", " [display_form a; display_form b]
                      +:+ " ... " +:+ display_form z)))
  /\ prepareAuthorLine [jane] = Normal (Some "Jane Doe")
  /\ prepareAuthorLine [jane; john] = Normal (Some "Jane Doe, John Q Public")
  /\ prepareAuthorLine [jane; john; ada]
     = Normal (Some "Jane Doe, John Q Public, Ada")
  /\ prepareAuthorLine [jane; john; ada; grace]
     = Normal (Some "Jane Doe, John Q Public ... Grace Hopper").
Proof.
  split; [reflexivity |].
  split.
  { intros a. rewrite <- prepareAuthor_is_display_form. reflexivity. }
  split.
  { intros a b. rewrite <- !prepareAuthor_is_display_form. reflexivity. }
  split.
  { intros a b c. rewrite <- !prepareAuthor_is_display_form.
    transitivity
      (Normal (Some ((prepareAuthor a +:+ ", " +:+ prepareAuthor b)
                     +:+ ", " +:+ prepareAuthor c)));
      [reflexivity |].
    now rewrite append_assoc. }
  split.
  { intros a b c middle z. rewrite <- !prepareAuthor_is_display_form.
    apply prepareAuthorLine_many. }
  repeat split; reflexivity.
Qed.

Lemma prepareAuthorLine_by_count_witness :
  prepareAuthorLine [jane; john; ada; alan; grace]
  = Normal (Some "Jane Doe, John Q Public ... Grace Hopper").
Proof.
  exact (proj1 (proj2 (proj2 (proj2 (proj2 prepareAuthorLine_by_count))))
           jane john ada [alan] grace).
Defined.

(** C10.  Two author lists of the same length that agree on the first, the
    second and the last author have the same author line. *)
Theorem prepareAuthorLine_depends_on_first_second_last
  (xs ys : list Author) :
  length xs = length ys ->
  xs !! 0%nat = ys !! 0%nat ->
  xs !! 1%nat = ys !! 1%nat ->
  xs !! (length xs - 1)%nat = ys !! (length ys - 1)%nat ->
  prepareAuthorLine xs = prepareAuthorLine ys.
Proof.
  intros Hlen H0 H1 Hlast.
  unfold prepareAuthorLine, JS.deref.
  rewrite <- Hlen in Hlast |- *.
  rewrite H0, H1, Hlast. reflexivity.
Qed.

(** ** Rich text *)

Lemma foldr_append_map {A} (f : A -> string) (l : list A) :
  foldr String.append "" (map f l) = foldr (fun x s => f x +:+ s) "" l.
Proof. induction l as [|x l IH]; cbn; [reflexivity | now rewrite IH]. Qed.

(** C2.  Absent content renders as the empty string, a string as itself, a
    sequence as the renders of its elements one after the other, a node of
    a known variant as the render of its content between the opening and
    the closing tag of the variant, and a node of any other variant as the
    empty string.  The function is total: nothing is raised. *)
Theorem contentToHtml_cases :
  contentToHtml CUndefined = ""
  /\ (forall s, contentToHtml (CText s) = s)
  /\ (forall parts,
        contentToHtml (CArray parts) =
        foldr (fun part html => contentToHtml part +:+ html) "" parts)
  /\ (forall type content,
        contentToHtml (CNode type content) =
        match tag_of type with
        | Some tag =>
            "<" +:+ tag +:+ ">" +:+ contentToHtml content
            +:+ "</" +:+ tag +:+ ">"
        | None => ""
        end)
  /\ tag_of "Paragraph" = Some "p" /\ tag_of "Emphasis" = Some "em"
  /\ tag_of "Strong" = Some "strong"
  /\ tag_of "NontextualAnnotation" = Some "u"
  /\ tag_of "Superscript" = Some "sup" /\ tag_of "Subscript" = Some "sub".
Proof.
  split; [reflexivity |]. split; [reflexivity |].
  split.
  { intros parts.
    change (contentToHtml (CArray parts))
      with (JS.join "" (map contentToHtml parts)).
    now rewrite join_empty_sep, foldr_append_map. }
  split; [| repeat split; reflexivity].
  intros type content.
  change (contentToHtml (CNode type content)) with
    (if String.eqb type "Paragraph" then
       "<p>" +:+ contentToHtml content +:+ "</p>"
     else if String.eqb type "Emphasis" then
       "<em>" +:+ contentToHtml content +:+ "</em>"
     else if String.eqb type "Strong" then
       "<strong>" +:+ contentToHtml content +:+ "</strong>"
     else if String.eqb type "NontextualAnnotation" then
       "<u>" +:+ contentToHtml content +:+ "</u>"
     else if String.eqb type "Superscript" then
       "<sup>" +:+ contentToHtml content +:+ "</sup>"
     else if String.eqb type "Subscript" then
       "<sub>" +:+ contentToHtml content +:+ "</sub>"
     else "").
  unfold tag_of, html_tags. cbn [List.find fst snd].
  repeat (destruct (String.eqb type _); [reflexivity |]).
  reflexivity.
Qed.

(** ** Dates *)

Import JSDate.

Lemma DayFromYear_succ (y : Z) :
  DayFromYear (y + 1) = DayFromYear y + DaysInYear y.
Proof.
  unfold DayFromYear, DaysInYear.
  destruct (Z.eqb_spec (y mod 4) 0), (Z.eqb_spec (y mod 100) 0),
    (Z.eqb_spec (y mod 400) 0); cbn [negb];
    Z.div_mod_to_equations; lia.
Qed.

Lemma YearFromTime_bracket (t : Z) :
  DayFromYear (YearFromTime t) <= Day t < DayFromYear (YearFromTime t + 1).
Proof.
  unfold YearFromTime.
  set (d := Day t). 
  set (y := 1970 + d * 400 / 146097).
  assert (Hy : DayFromYear (y - 1) <= d < DayFromYear (y + 2)).
  { unfold DayFromYear, y. Z.div_mod_to_equations; lia. }
  destruct (Z.ltb_spec d (DayFromYear y)).
  - replace (y - 1 + 1) with y by lia. lia.
  - destruct (Z.leb_spec (DayFromYear (y + 1)) d).
    + replace (y + 1 + 1) with (y + 2) by lia. lia.
    + lia.
Qed.

(** A boolean property checked on every integer of a range holds on the
    range. *)
Lemma forall_range (P : Z -> bool) (lo hi : Z) :
  forallb P (map (fun i => lo + Z.of_nat i) (seq 0 (Z.to_nat (hi - lo))))
  = true ->
  forall z, lo <= z < hi -> P z = true.
Proof.
  intros Hall z Hz.
  rewrite forallb_forall in Hall. apply Hall.
  apply in_map_iff. exists (Z.to_nat (z - lo)). split; [lia |].
  apply in_seq. lia.
Qed.

Lemma padStart_two_digits (n : Z) :
  0 <= n < 100 -> JS.padStart (toString (of_Z n)) 2 "0" = two_digits n.
Proof.
  intros Hn. apply String.eqb_eq.
  apply (forall_range
           (fun n => String.eqb (JS.padStart (toString (of_Z n)) 2 "0")
                                (two_digits n)) 0 100);
    [vm_compute; reflexivity | lia].
Qed.

Lemma toString_four_digits (n : Z) :
  1000 <= n <= 9999 -> toString (of_Z n) = four_digits n.
Proof.
  intros Hn. apply String.eqb_eq.
  apply (forall_range
           (fun n => String.eqb (toString (of_Z n)) (four_digits n))
           1000 10000);
    [vm_compute; reflexivity | lia].
Qed.

Lemma digit_char_is_digit (d : Z) :
  0 <= d <= 9 -> is_digit 10 (digit_char d) = true.
Proof.
  intros Hd.
  apply (forall_range (fun d => is_digit 10 (digit_char d)) 0 10);
    [vm_compute; reflexivity | lia].
Qed.

Lemma add_of_Z (a b : Z) : add (of_Z a) (of_Z b) = of_Z (a + b).
Proof. unfold add, of_Z. cbn. f_equal. lia. Qed.

Lemma MonthFromTime_range (t : Z) : 0 <= MonthFromTime t <= 11.
Proof.
  unfold MonthFromTime.
  repeat (destruct (_ <? _); [lia |]). lia.
Qed.

Lemma InLeapYear_DaysInYear (t : Z) :
  DaysInYear (YearFromTime t) = 365 + InLeapYear t.
Proof.
  unfold InLeapYear.
  destruct (Z.eqb_spec (DaysInYear (YearFromTime t)) 366) as [-> | Hne];
    [reflexivity |].
  revert Hne. unfold DaysInYear.
  repeat (destruct (negb _)); lia.
Qed.

Lemma DayWithinYear_range (t : Z) :
  0 <= DayWithinYear t < 365 + InLeapYear t.
Proof.
  pose proof (YearFromTime_bracket t) as H.
  rewrite DayFromYear_succ, InLeapYear_DaysInYear in H.
  unfold DayWithinYear. lia.
Qed.

Lemma DateFromTime_range (t : Z) : 1 <= DateFromTime t <= 31.
Proof.
  pose proof (DayWithinYear_range t) as H.
  unfold DateFromTime, MonthFromTime.
  assert (Hleap : InLeapYear t = 0 \/ InLeapYear t = 1).
  { unfold InLeapYear. destruct (_ =? _); lia. }
  generalize dependent (InLeapYear t). generalize (DayWithinYear t).
  intros d leap H Hleap.
  repeat (match goal with
          | |- context [if ?d <? ?b then _ else _] =>
              destruct (Z.ltb_spec d b)
          end; [cbn; lia |]).
  cbn; lia.
Qed.

Lemma HourFromTime_range (t : Z) : 0 <= HourFromTime t < 24.
Proof. unfold HourFromTime. apply Z.mod_pos_bound. lia. Qed.

Lemma MinFromTime_range (t : Z) : 0 <= MinFromTime t < 60.
Proof. unfold MinFromTime. apply Z.mod_pos_bound. lia. Qed.

Lemma SecFromTime_range (t : Z) : 0 <= SecFromTime t < 60.
Proof. unfold SecFromTime. apply Z.mod_pos_bound. lia. Qed.

(** Dropping the milliseconds of a time value changes no field down to the
    second. *)
Lemma Day_whole_second (t : Z) : Day (t - t mod 1000) = Day t.
Proof. unfold Day, msPerDay. Z.div_mod_to_equations; lia. Qed.

Lemma YearFromTime_whole_second (t : Z) :
  YearFromTime (t - t mod 1000) = YearFromTime t.
Proof. unfold YearFromTime. now rewrite Day_whole_second. Qed.

Lemma MonthFromTime_whole_second (t : Z) :
  MonthFromTime (t - t mod 1000) = MonthFromTime t.
Proof.
  unfold MonthFromTime, DayWithinYear, InLeapYear.
  now rewrite Day_whole_second, YearFromTime_whole_second.
Qed.

Lemma DateFromTime_whole_second (t : Z) :
  DateFromTime (t - t mod 1000) = DateFromTime t.
Proof.
  unfold DateFromTime, DayWithinYear, InLeapYear.
  now rewrite MonthFromTime_whole_second, Day_whole_second,
    YearFromTime_whole_second.
Qed.

Lemma HourFromTime_whole_second (t : Z) :
  HourFromTime (t - t mod 1000) = HourFromTime t.
Proof. unfold HourFromTime, msPerHour. Z.div_mod_to_equations; lia. Qed.

Lemma MinFromTime_whole_second (t : Z) :
  MinFromTime (t - t mod 1000) = MinFromTime t.
Proof. unfold MinFromTime, msPerMinute. Z.div_mod_to_equations; lia. Qed.

Lemma SecFromTime_whole_second (t : Z) :
  SecFromTime (t - t mod 1000) = SecFromTime t.
Proof. unfold SecFromTime, msPerSecond. Z.div_mod_to_equations; lia. Qed.

(** The normalized form of a valid date: the year in plain decimal, the
    other fields in two digits. *)
Lemma toIsoStringWithoutMilliseconds_valid (t : Z) :
  toIsoStringWithoutMilliseconds (Some t) =
  toString (of_Z (YearFromTime t)) +:+ "-" +:+
  two_digits (MonthFromTime t + 1) +:+ "-" +:+
  two_digits (DateFromTime t) +:+ "T" +:+
  two_digits (HourFromTime t) +:+ ":" +:+
  two_digits (MinFromTime t) +:+ ":" +:+
  two_digits (SecFromTime t) +:+ "Z".
Proof.
  unfold toIsoStringWithoutMilliseconds, getUTCFullYear, getUTCMonth,
    getUTCDate, getUTCHours, getUTCMinutes, getUTCSeconds, getter.
  pose proof (MonthFromTime_range t). pose proof (DateFromTime_range t).
  pose proof (HourFromTime_range t). pose proof (MinFromTime_range t).
  pose proof (SecFromTime_range t).
  rewrite add_of_Z.
  rewrite !padStart_two_digits by lia. reflexivity.
Qed.

(** X22.  The normalized form of a valid date has the year in plain
    decimal and every other field in two digits, and is that of the whole
    second the date falls in (milliseconds are cut off, not rounded); when
    the UTC year has four digits the result is [YYYY-MM-DDTHH:MM:SSZ] digit
    for digit. *)
Theorem toIsoStringWithoutMilliseconds_shape (t : Z) :
  toIsoStringWithoutMilliseconds (Some t) =
    toString (of_Z (YearFromTime t)) +:+ "-" +:+
    two_digits (MonthFromTime t + 1) +:+ "-" +:+
    two_digits (DateFromTime t) +:+ "T" +:+
    two_digits (HourFromTime t) +:+ ":" +:+
    two_digits (MinFromTime t) +:+ ":" +:+
    two_digits (SecFromTime t) +:+ "Z"
  /\ toIsoStringWithoutMilliseconds (Some (t - t mod 1000)) =
     toIsoStringWithoutMilliseconds (Some t)
  /\ (1000 <= YearFromTime t <= 9999 ->
      toIsoStringWithoutMilliseconds (Some t) =
        iso_seconds (YearFromTime t) (MonthFromTime t + 1) (DateFromTime t)
          (HourFromTime t) (MinFromTime t) (SecFromTime t)
      /\ iso_shape (toIsoStringWithoutMilliseconds (Some t)) = true).
Proof.
  split; [apply toIsoStringWithoutMilliseconds_valid |].
  split.
  { rewrite !toIsoStringWithoutMilliseconds_valid.
    now rewrite YearFromTime_whole_second, MonthFromTime_whole_second,
      DateFromTime_whole_second, HourFromTime_whole_second,
      MinFromTime_whole_second, SecFromTime_whole_second. }
  intros Hyear.
  assert (Heq : toIsoStringWithoutMilliseconds (Some t) =
                iso_seconds (YearFromTime t) (MonthFromTime t + 1)
                  (DateFromTime t) (HourFromTime t) (MinFromTime t)
                  (SecFromTime t)).
  { rewrite toIsoStringWithoutMilliseconds_valid.
    rewrite toString_four_digits by exact Hyear. reflexivity. }
  split; [exact Heq |].
  rewrite Heq. unfold iso_seconds, iso_shape.
  pose proof (MonthFromTime_range t). pose proof (DateFromTime_range t).
  pose proof (HourFromTime_range t). pose proof (MinFromTime_range t).
  pose proof (SecFromTime_range t).
  rewrite !digit_char_is_digit by (Z.div_mod_to_equations; lia).
  reflexivity.
Qed.

(** ** The response writer *)

Lemma writeResponse_spec (contentType : string) (code : Z) (message : Message)
  (w : World) :
  writeResponse contentType code message w
  = (after_write contentType code message w, Normal tt).
Proof.
  destruct w as [[sent sc hs b] tr].
  unfold writeResponse, after_write, written, mbind, io_mbind, io_bind,
    log, get_headersSent, status, set, json, on_response, mret, io_mret,
    io_ret.
  destruct sent; cbn.
  - reflexivity.
  - rewrite lookup_insert_ne by discriminate.
    rewrite lookup_insert_ne by discriminate.
    rewrite lookup_insert_eq. reflexivity.
Qed.

(** ** Runs of the handlers *)

Lemma io_steps_ret {A} (a : A) : io_steps (mret a).
Proof. intros w. apply rtc_refl. Qed.

Lemma io_steps_lift {A} (c : completion A) : io_steps (lift c).
Proof. intros w. apply rtc_refl. Qed.

Lemma io_steps_bind {A B} (m : IO A) (k : A -> IO B) :
  io_steps m -> (forall a, io_steps (k a)) -> io_steps (m ≫= k).
Proof.
  intros Hm Hk w. specialize (Hm w).
  unfold mbind, io_mbind, io_bind.
  destruct (m w) as [w' [a | e]]; cbn in *.
  - etrans; [exact Hm | apply Hk].
  - exact Hm.
Qed.

Lemma io_steps_fetched (url : string) : io_steps (log (Fetched url)).
Proof. intros w. apply rtc_once, step_fetch. Qed.

Lemma io_steps_writeResponse (contentType : string) (code : Z)
  (message : Message) : io_steps (writeResponse contentType code message).
Proof. intros w. rewrite writeResponse_spec. apply rtc_once, step_write. Qed.

Lemma io_steps_fetchVersionsNoContent env page perPage order useDate
  startDate endDate :
  io_steps (fetchVersionsNoContent env page perPage order useDate
              startDate endDate).
Proof.
  unfold fetchVersionsNoContent.
  apply io_steps_bind; [apply io_steps_lift | intros url].
  apply io_steps_bind; [apply io_steps_fetched | intros _].
  apply io_steps_bind; [apply io_steps_lift | intros response].
  destruct (negb (ok response)); [apply io_steps_lift |].
  apply io_steps_bind; [apply io_steps_lift | intros items].
  apply io_steps_ret.
Qed.

(** A validation check followed by the rest of the handler. *)
Lemma bind_check {A} (failed : bool) (detail : string) (k : IO A)
  (w : World) :
  ((if failed then errorBadRequest detail else mret tt) ≫= fun _ => k) w
  = k (if failed
       then after_write "application/problem+json" 400 (problem detail) w
       else w).
Proof.
  unfold mbind, io_mbind, io_bind, errorBadRequest.
  destruct failed; [now rewrite writeResponse_spec | reflexivity].
Qed.

(** Every run of the list handler writes the messages of all failing checks,
    in their order, and then goes on with further steps. *)
Lemma app_get_list_run (env : Env) (req : Request) (w : World) :
  rtc step (after_errors (validationErrors req) w)
           (fst (app_get_list env req w)).
Proof.
  unfold app_get_list. cbv zeta. rewrite !bind_check.
  unfold validationErrors. cbv zeta.
  match goal with
  | |- rtc step _ (fst (?k ?w6)) =>
      assert (Hk : io_steps k);
      [| replace (after_errors _ w) with w6; [apply Hk |] ]
  end.
  - apply io_steps_bind;
      [apply io_steps_fetchVersionsNoContent | intros results].
    apply io_steps_bind; [apply io_steps_lift | intros items].
    apply io_steps_writeResponse.
  - repeat match goal with
           | |- context [if ?c then after_write _ _ _ _ else _] =>
               destruct c
           end; reflexivity.
Qed.

(** Steps only add to the trace. *)
Lemma steps_trace (w w' : World) :
  rtc step w w' -> exists rest, trace w' = trace w ++ rest.
Proof.
  induction 1 as [w | w w1 w2 Hstep _ [rest IH]].
  - exists []. now rewrite app_nil_r.
  - destruct Hstep; cbn in IH; rewrite <- app_assoc in IH; eauto.
Qed.

(** Once the headers have gone out, no step changes the response. *)
Lemma steps_sent (w w' : World) :
  rtc step w w' -> headersSent (res w) = true -> res w' = res w.
Proof.
  induction 1 as [w | w w1 w2 Hstep _ IH]; [reflexivity |].
  intros Hsent. destruct Hstep; cbn in IH.
  - now apply IH.
  - rewrite Hsent in IH. now apply IH.
Qed.

Lemma first_write_fetched (events : list Event) (url : string) :
  first_write (events ++ [Fetched url]) = first_write events.
Proof.
  unfold first_write. rewrite List.filter_app. cbn. now rewrite app_nil_r.
Qed.

Lemma first_write_called (events : list Event) (code : Z)
  (message : Message) :
  first_write (events ++ [WriteResponseCalled code message]) =
  match first_write events with
  | Some first => Some first
  | None => Some (code, message)
  end.
Proof.
  unfold first_write. rewrite List.filter_app. cbn.
  destruct (List.filter _ events) as [|[c m | url] rest] eqn:Hf;
    try reflexivity.
  exfalso.
  assert (Hin : In (Fetched url) (List.filter
    (fun e => match e with
              | WriteResponseCalled _ _ => true
              | Fetched _ => false
              end) events)) by (rewrite Hf; now left).
  apply filter_In in Hin. destruct Hin as [_ Hin]. discriminate Hin.
Qed.

(** Steps keep the response object and the trace in agreement. *)
Lemma step_consistent (w w' : World) :
  step w w' -> consistent w -> consistent w'.
Proof.
  intros Hstep. destruct Hstep as [w url | w ct code m];
    unfold consistent; cbn.
  - now rewrite first_write_fetched.
  - rewrite first_write_called.
    destruct (first_write (trace w)) as [[c0 m0] |].
    + intros (Hsent & Hcode & Hbody). now rewrite Hsent.
    + intros Hsent. rewrite Hsent. cbn. auto.
Qed.

Lemma steps_consistent (w w' : World) :
  rtc step w w' -> consistent w -> consistent w'.
Proof.
  induction 1 as [w | w w1 w2 Hstep _ IH]; [auto |].
  intros Hw. apply IH. eapply step_consistent; eassumption.
Qed.

Lemma after_errors_steps (errors : list string) (w : World) :
  rtc step w (after_errors errors w).
Proof.
  revert w. induction errors as [|detail errors IH]; intros w.
  - apply rtc_refl.
  - eapply rtc_l; [apply step_write | apply IH].
Qed.

Lemma after_errors_trace (errors : list string) (w : World) :
  trace (after_errors errors w) =
  trace w ++ map (fun detail => WriteResponseCalled 400 (problem detail))
                 errors.
Proof.
  revert w. induction errors as [|detail errors IH]; intros w; cbn.
  - now rewrite app_nil_r.
  - unfold after_errors in IH. rewrite IH. cbn. now rewrite <- app_assoc.
Qed.

Lemma after_errors_res (first : string) (others : list string) (w : World) :
  headersSent (res w) = false ->
  res (after_errors (first :: others) w) =
  written "application/problem+json" 400 (problem first) (res w).
Proof.
  intros Hunsent.
  change (after_errors (first :: others) w) with
    (after_errors others
       (after_write "application/problem+json" 400 (problem first) w)).
  rewrite (steps_sent _ _ (after_errors_steps others _)); cbn;
    now rewrite Hunsent.
Qed.

Lemma consistent_received (w : World) :
  consistent w -> received w = first_write (trace w).
Proof.
  unfold consistent, received.
  destruct (first_write (trace w)) as [[code message] |].
  - intros (-> & -> & ->). reflexivity.
  - intros ->. reflexivity.
Qed.

Lemma fresh_consistent : consistent fresh.
Proof. reflexivity. Qed.

(** The response of a request with failing checks is that of the first. *)
Lemma app_get_list_res (env : Env) (req : Request) (w : World)
  (first : string) (others : list string) :
  headersSent (res w) = false ->
  validationErrors req = first :: others ->
  res (fst (app_get_list env req w)) =
  written "application/problem+json" 400 (problem first) (res w).
Proof.
  intros Hunsent Herrors.
  pose proof (app_get_list_run env req w) as Hrun.
  rewrite Herrors in Hrun.
  rewrite (steps_sent _ _ Hrun);
    rewrite after_errors_res by exact Hunsent; reflexivity.
Qed.

Lemma app_get_list_trace (env : Env) (req : Request) (w : World) :
  exists rest,
    trace (fst (app_get_list env req w)) =
    trace w
    ++ map (fun detail => WriteResponseCalled 400 (problem detail))
           (validationErrors req)
    ++ rest.
Proof.
  destruct (steps_trace _ _ (app_get_list_run env req w)) as [rest Hrest].
  exists rest. rewrite Hrest, after_errors_trace. now rewrite <- app_assoc.
Qed.

(** C4, as the sources have it.  When two or more validation checks fail,
    [writeResponse] is still called for every failing check, in the order
    page, per-page, order, use-date, start-date, end-date, and the response
    that is sent is the 400 problem of the first failing check. *)
Theorem first_failing_check_lands (env : Env) (req : Request) (w : World)
  (first second : string) (others : list string) :
  headersSent (res w) = false ->
  validationErrors req = first :: second :: others ->
  (exists rest,
     trace (fst (app_get_list env req w)) =
     trace w
     ++ map (fun detail => WriteResponseCalled 400 (problem detail))
            (first :: second :: others)
     ++ rest)
  /\ res (fst (app_get_list env req w)) =
     written "application/problem+json" 400 (problem first) (res w).
Proof.
  intros Hunsent Herrors. split.
  - rewrite <- Herrors. apply app_get_list_trace.
  - now apply app_get_list_res with (others := second :: others).
Qed.

(** C9.  A call of [writeResponse] after the headers have gone out leaves
    the response object as it is, and after every call the headers have
    gone out.  So in every run of a handler the client receives the message
    of the first call of [writeResponse] and nothing else; when a validation
    check fails that is the 400 problem of the first failing check, not the
    200 list written later. *)
Theorem writeResponse_first_call_wins :
  (forall contentType code message w,
      headersSent (res w) = true ->
      writeResponse contentType code message w =
      ({| res := res w;
          trace := trace w ++ [WriteResponseCalled code message] |},
       Normal tt))
  /\ (forall contentType code message w,
        headersSent (res (fst (writeResponse contentType code message w)))
        = true)
  /\ (forall env req,
        received (fst (app_get_list env req fresh)) =
        first_write (trace (fst (app_get_list env req fresh))))
  /\ (forall req,
        received (fst (app_get_item req fresh)) =
        first_write (trace (fst (app_get_item req fresh))))
  /\ (forall env req first others,
        validationErrors req = first :: others ->
        received (fst (app_get_list env req fresh)) =
        Some (400, problem first)).
Proof.
  split.
  { intros ct code m w Hsent. rewrite writeResponse_spec.
    unfold after_write. now rewrite Hsent. }
  split.
  { intros ct code m w. rewrite writeResponse_spec. cbn.
    destruct (headersSent (res w)) eqn:Hsent; [exact Hsent | reflexivity]. }
  split.
  { intros env req. apply consistent_received.
    eapply steps_consistent; [| apply fresh_consistent].
    etrans; [apply after_errors_steps | apply app_get_list_run]. }
  split.
  { intros req. reflexivity. }
  intros env req first others Herrors.
  unfold received.
  rewrite (app_get_list_res env req fresh first others) by easy.
  reflexivity.
Qed.

(** ** Evaluations on the sample inputs *)

Lemma prepareAuthorLine_depends_on_first_second_last_witness :
  prepareAuthorLine [jane; john; ada; alan; grace]
  = prepareAuthorLine [jane; john; alan; ada; grace].
Proof.
  apply (prepareAuthorLine_depends_on_first_second_last
           [jane; john; ada; alan; grace] [jane; john; alan; ada; grace]);
    reflexivity.
Defined.

Lemma toIsoStringWithoutMilliseconds_shape_witness :
  toIsoStringWithoutMilliseconds (Some 1682944245678)
  = iso_seconds 2023 5 1 12 30 45
  /\ iso_shape (toIsoStringWithoutMilliseconds (Some 1682944245678)) = true.
Proof.
  apply (proj2 (proj2 (toIsoStringWithoutMilliseconds_shape 1682944245678))).
  vm_compute. split; discriminate.
Defined.

(** C7: the code at the first instant of the year 999,
    [new Date(Date.UTC(999, 0, 1))].  Every field but the year is padded:
    the result is "999-01-01T00:00:00Z", one character short of the shape
    [YYYY-MM-DDTHH:MM:SSZ]. *)
Lemma toIsoStringWithoutMilliseconds_year_999 :
  toIsoStringWithoutMilliseconds (Some (-30641760000000))
  = "999-01-01T00:00:00Z"
  /\ iso_shape (toIsoStringWithoutMilliseconds (Some (-30641760000000)))
     = false.
Proof. split; vm_compute; reflexivity. Qed.

Lemma first_failing_check_lands_witness :
  res (fst (app_get_list (sample_env None)
              (request [("page", "0"); ("per-page", "101")]) fresh))
  = written "application/problem+json" 400
      (problem "expecting positive integer for 'page' parameter")
      (res fresh).
Proof.
  apply (first_failing_check_lands (sample_env None)
           (request [("page", "0"); ("per-page", "101")]) fresh
           "expecting positive integer for 'page' parameter"
           "expecting positive integer between 1 and 100 for 'per-page' parameter"
           []);
    [reflexivity | vm_compute; reflexivity].
Defined.

(** C4 fails on [/?page=0&per-page=101]: both checks fail, the last failing
    check is the one on per-page, and the client receives the problem of the
    page check. *)
Lemma last_failing_check_does_not_land :
  validationErrors (request [("page", "0"); ("per-page", "101")])
  = ["expecting positive integer for 'page' parameter";
     "expecting positive integer between 1 and 100 for 'per-page' parameter"]
  /\ received (fst (app_get_list (sample_env None)
                      (request [("page", "0"); ("per-page", "101")]) fresh))
     = Some (400, problem "expecting positive integer for 'page' parameter")
  /\ received (fst (app_get_list (sample_env None)
                      (request [("page", "0"); ("per-page", "101")]) fresh))
     <> Some (400, problem "expecting positive integer between 1 and 100 for 'per-page' parameter").
Proof.
  split; [vm_compute; reflexivity |].
  assert (H : received (fst (app_get_list (sample_env None)
                (request [("page", "0"); ("per-page", "101")]) fresh))
              = Some (400, problem
                  "expecting positive integer for 'page' parameter"))
    by (vm_compute; reflexivity).
  split; [exact H |]. rewrite H. discriminate.
Qed.

Lemma writeResponse_first_call_wins_witness :
  let w := fst (app_get_list (sample_env None) (request [("page", "0")])
                  fresh) in
  received w
  = Some (400, problem "expecting positive integer for 'page' parameter")
  /\ received w = first_write (trace w)
  /\ (exists list,
        trace w
        = [WriteResponseCalled 400
             (problem "expecting positive integer for 'page' parameter");
           Fetched "http://wiremock:3000/api/preprints-no-content?page=0&per-page=20&order=desc";
           WriteResponseCalled 200 list])
  /\ writeResponse
       "application/vnd.elife.reviewed-preprint-list+json; version=1" 200
       (ReviewedPreprintListResponse (of_Z 2) [])
       {| res := res w; trace := [] |}
     = ({| res := res w;
           trace := [WriteResponseCalled 200
                       (ReviewedPreprintListResponse (of_Z 2) [])] |},
        Normal tt).
Proof.
  intros w. split.
  { apply (proj2 (proj2 (proj2 (proj2 writeResponse_first_call_wins)))
             (sample_env None) (request [("page", "0")])
             "expecting positive integer for 'page' parameter" []).
    vm_compute. reflexivity. }
  split.
  { apply (proj1 (proj2 (proj2 writeResponse_first_call_wins))
             (sample_env None) (request [("page", "0")])). }
  split.
  { eexists. vm_compute. reflexivity. }
  apply (proj1 writeResponse_first_call_wins
           "application/vnd.elife.reviewed-preprint-list+json; version=1"
           200 (ReviewedPreprintListResponse (of_Z 2) [])
           {| res := res w; trace := [] |}).
  vm_compute. reflexivity.
Defined.

(** ** The record transformer *)

(** The author line never throws. *)
Lemma prepareAuthorLine_total (authors : list Author) :
  exists line, prepareAuthorLine authors = Normal line.
Proof.
  destruct authors as [|a [|b [|c [|d rest]]]]; try (eexists; reflexivity).
  destruct (exists_last (l := d :: rest)) as (middle & z & ->);
    [discriminate |].
  eexists. apply prepareAuthorLine_many.
Qed.

(** C6.  The snippet of a record with a publication date: [published] and
    [reviewedDate] are the normalized [firstPublished], [versionDate] and
    [statusDate] the normalized [published], [id] is the manuscript id,
    [doi] the preprint DOI, [status] is "reviewed" and [stage] is
    "published". *)
Theorem enhancedArticleNoContentToSnippet_fields
  (r : EnhancedArticleNoContent) (date : JSDate.Date) :
  published r = Some date ->
  exists snippet,
    enhancedArticleNoContentToSnippet r = Normal snippet
    /\ snippet_published snippet =
       Some (toIsoStringWithoutMilliseconds (firstPublished r))
    /\ snippet_reviewedDate snippet =
       Some (toIsoStringWithoutMilliseconds (firstPublished r))
    /\ snippet_versionDate snippet =
       Some (toIsoStringWithoutMilliseconds date)
    /\ snippet_statusDate snippet =
       Some (toIsoStringWithoutMilliseconds date)
    /\ snippet_id snippet = msid r
    /\ snippet_doi snippet = preprintDoi r
    /\ snippet_status snippet = "reviewed"
    /\ snippet_stage snippet = "published".
Proof.
  intros Hpublished. unfold enhancedArticleNoContentToSnippet.
  destruct (prepareAuthorLine_total (default [] (authors (article r))))
    as [line ->].
  rewrite Hpublished. eexists. split; [reflexivity |].
  cbn. repeat split; reflexivity.
Qed.

Lemma enhancedArticleNoContentToSnippet_fields_witness :
  exists snippet,
    enhancedArticleNoContentToSnippet sample_record = Normal snippet
    /\ snippet_published snippet = Some "2023-04-30T12:30:45Z"
    /\ snippet_reviewedDate snippet = Some "2023-04-30T12:30:45Z"
    /\ snippet_versionDate snippet = Some "2023-05-01T12:30:45Z"
    /\ snippet_statusDate snippet = Some "2023-05-01T12:30:45Z"
    /\ snippet_id snippet = "85111"
    /\ snippet_doi snippet = "10.1101/2022.11.08.515698"
    /\ snippet_status snippet = "reviewed"
    /\ snippet_stage snippet = "published".
Proof.
  apply (enhancedArticleNoContentToSnippet_fields sample_record
           (Some 1682944245678)).
  reflexivity.
Defined.

(** ** The upstream client *)

(** C8, as the sources have it.  When the upstream answers with items, the
    total is [parseInt(header, 10)] whenever the [x-total-count] header is
    present and not empty, whether or not it reads as an integer, and the
    number of items when the header is absent or empty. *)
Theorem fetchVersionsNoContent_total (env : Env) (page perPage : number)
  (order useDate startDate endDate url : string)
  (response : UpstreamResponse) (records : list EnhancedArticleNoContent)
  (w : World) :
  versions_url env page perPage order useDate startDate endDate
  = Normal url ->
  fetch env url = Normal response ->
  ok response = true ->
  response_json response = Normal records ->
  snd (fetchVersionsNoContent env page perPage order useDate startDate
         endDate w)
  = Normal
      {| total :=
           match response_headers response !! "x-total-count" with
           | Some header =>
               if String.eqb header "" then of_Z (Z.of_nat (length records))
               else parseInt10 header
           | None => of_Z (Z.of_nat (length records))
           end;
         items := records |}.
Proof.
  intros Hurl Hfetch Hok Hjson.
  unfold fetchVersionsNoContent, mbind, io_mbind, io_bind, lift, log.
  rewrite Hurl, Hfetch, Hok. cbn. rewrite Hjson. cbn.
  unfold JS.truthy.
  destruct (response_headers response !! "x-total-count") as [header |];
    [destruct (String.eqb header "") |]; reflexivity.
Qed.

Lemma fetchVersionsNoContent_total_witness :
  snd (fetchVersionsNoContent (sample_env (Some "50")) (of_Z 1) (of_Z 2)
         "desc" "default" "" "" fresh)
  = Normal {| total := of_Z 50; items := [sample_record; sample_record] |}.
Proof.
  rewrite (fetchVersionsNoContent_total (sample_env (Some "50")) (of_Z 1)
             (of_Z 2) "desc" "default" "" ""
             "http://wiremock:3000/api/preprints-no-content?page=1&per-page=2&order=desc"
             {| ok := true; statusText := "OK";
                response_headers := {[ "x-total-count" := "50" ]};
                response_json := Normal [sample_record; sample_record] |}
             [sample_record; sample_record] fresh)
    by reflexivity.
  vm_compute. reflexivity.
Defined.

(** C8 fails on a header that is present and does not read as an integer:
    the total is [NaN], not the number of items. *)
Lemma unparseable_total_is_NaN :
  snd (fetchVersionsNoContent (sample_env (Some "abc")) (of_Z 1) (of_Z 2)
         "desc" "default" "" "" fresh)
  = Normal {| total := NaN; items := [sample_record; sample_record] |}
  /\ NaN <> of_Z (Z.of_nat (length [sample_record; sample_record])).
Proof. split; [vm_compute; reflexivity | discriminate]. Qed.

(** C3: the code at [end-date=2023-05-01], the clock at 2026-11-03.  The
    end date sent upstream is the second day of the clock's month, not
    2023-05-02. *)
Theorem versions_url_end_date :
  versions_url (sample_env None) (of_Z 1) (of_Z 20) "desc" "default" ""
    "2023-05-01"
  = Normal "http://wiremock:3000/api/preprints-no-content?page=1&per-page=20&order=desc&end-date=2026-11-02".
Proof. vm_compute. reflexivity. Qed.

(** C5: the code at [/?page=abc].  The page reads as [NaN], no check fails,
    the upstream is asked for page [NaN] and the response is a 200. *)
Theorem page_abc_is_accepted :
  integerOrMinusOne (PString "abc") = NaN
  /\ validationErrors (request [("page", "abc")]) = []
  /\ trace (fst (app_get_list (sample_env None) (request [("page", "abc")])
                   fresh)) !! 0%nat
     = Some (Fetched "http://wiremock:3000/api/preprints-no-content?page=NaN&per-page=20&order=desc")
  /\ statusCode (res (fst (app_get_list (sample_env None)
                             (request [("page", "abc")]) fresh))) = 200.
Proof. repeat split; vm_compute; reflexivity. Qed.

(** * Further properties of the sources *)

(** ** Rich text *)

Lemma foldr_append_app (l1 l2 : list string) :
  foldr String.append "" (l1 ++ l2)
  = foldr String.append "" l1 +:+ foldr String.append "" l2.
Proof.
  induction l1 as [|x l1 IH]; [reflexivity |].
  cbn [app foldr]. now rewrite IH, append_assoc.
Qed.

Lemma contentToHtml_array (parts : list Content) :
  contentToHtml (CArray parts)
  = foldr String.append "" (map contentToHtml parts).
Proof.
  change (contentToHtml (CArray parts))
    with (JS.join "" (map contentToHtml parts)).
  apply join_empty_sep.
Qed.

(** X1.  Rendering distributes over the concatenation of sequences: the
    render of two sequences put together is the render of the first
    followed by the render of the second. *)
Theorem contentToHtml_concatenation (xs ys : list Content) :
  contentToHtml (CArray (xs ++ ys))
  = contentToHtml (CArray xs) +:+ contentToHtml (CArray ys).
Proof.
  rewrite !contentToHtml_array, map_app. apply foldr_append_app.
Qed.

(** Induction on content values, with the hypothesis on every element of a
    sequence. *)
Lemma Content_nested_ind (P : Content -> Prop) :
  P CUndefined ->
  (forall s, P (CText s)) ->
  (forall parts, Forall P parts -> P (CArray parts)) ->
  (forall type inner, P inner -> P (CNode type inner)) ->
  forall content, P content.
Proof.
  intros Hundefined Htext Harray Hnode.
  fix IH 1. intros [| s | parts | type inner].
  - exact Hundefined.
  - apply Htext.
  - apply Harray. induction parts as [|part parts IHparts].
    + constructor.
    + constructor; [apply IH | exact IHparts].
  - apply Hnode, IH.
Qed.

(** X2.  Content made of strings and sequences only, nested to any depth,
    renders as its strings one after the other, in reading order and
    unchanged: no separator is added and nothing is escaped. *)
Theorem contentToHtml_plain (content : Content) :
  plain content = true ->
  contentToHtml content = foldr String.append "" (texts content).
Proof.
  induction content as [| s | parts IH | type inner IH]
    using Content_nested_ind; intros Hplain.
  - reflexivity.
  - cbn. now rewrite append_nil_r.
  - rewrite contentToHtml_array.
    cbn [plain texts] in *.
    induction IH as [|part parts Hpart _ IHparts]; [reflexivity |].
    cbn [forallb] in Hplain. apply andb_prop in Hplain as [Hp Hps].
    cbn [map foldr concat]. rewrite foldr_append_app, Hpart by exact Hp.
    now rewrite IHparts.
  - discriminate Hplain.
Qed.

Lemma contentToHtml_plain_witness :
  contentToHtml (CArray [CText "a < b"; CArray [CText " & "; CUndefined];
                         CText "c"])
  = "a < b & c".
Proof.
  apply (contentToHtml_plain
           (CArray [CText "a < b"; CArray [CText " & "; CUndefined];
                    CText "c"])).
  reflexivity.
Defined.

(** ** Authors *)

Lemma join_app (sep : string) (l1 l2 : list string) :
  l1 <> [] -> l2 <> [] ->
  JS.join sep (l1 ++ l2) = JS.join sep l1 +:+ sep +:+ JS.join sep l2.
Proof.
  intros H1 H2. induction l1 as [|x [|y l1] IH]; [congruence | |].
  - destruct l2 as [|z l2]; [congruence | reflexivity].
  - change ((x :: y :: l1) ++ l2) with (x :: (y :: l1) ++ l2).
    change ((y :: l1) ++ l2) with (y :: l1 ++ l2) at 1.
    rewrite join_cons.
    change (y :: l1 ++ l2) with ((y :: l1) ++ l2).
    rewrite IH by discriminate.
    rewrite join_cons. now rewrite !append_assoc.
Qed.

(** X3.  The display form of an author.  When the family names join to the
    empty string (none given, or only empty ones) it is the given names
    joined by a space, with no space after them.  When there are given
    names and the family names join to a non-empty string it is all names,
    given names first, joined by single spaces. *)
Theorem prepareAuthor_display_form (author : Author) :
  (JS.join " " (default [] (familyNames author)) = "" ->
   prepareAuthor author = JS.join " " (default [] (givenNames author)))
  /\ (default [] (givenNames author) <> [] ->
      JS.join " " (default [] (familyNames author)) <> "" ->
      prepareAuthor author
      = JS.join " " (default [] (givenNames author)
                     ++ default [] (familyNames author))).
Proof.
  unfold prepareAuthor, JS.truthy. split.
  - intros ->. cbn. now rewrite append_nil_r.
  - intros Hgiven Hfamily.
    destruct (String.eqb_spec
                (JS.join " " (default [] (familyNames author))) "")
      as [Hempty | _]; [contradiction |].
    cbn [negb]. rewrite join_app; [reflexivity | exact Hgiven |].
    intros Hnil. rewrite Hnil in Hfamily. now apply Hfamily.
Qed.

Lemma prepareAuthor_display_form_witness :
  prepareAuthor ada = "Ada" /\ prepareAuthor john = "John Q Public".
Proof.
  split.
  - apply (proj1 (prepareAuthor_display_form ada)). reflexivity.
  - apply (proj2 (prepareAuthor_display_form john)); discriminate.
Defined.

(** X4.  The author line never throws, and it is absent exactly for the
    empty list of authors. *)
Theorem prepareAuthorLine_defined (authors : list Author) :
  exists line,
    prepareAuthorLine authors = Normal line
    /\ (line = None <-> authors = []).
Proof.
  destruct authors as [|a [|b [|c [|d rest]]]].
  - exists None. split; [reflexivity | easy].
  - eexists. split; [reflexivity | easy].
  - eexists. split; [reflexivity | easy].
  - eexists. split; [reflexivity | easy].
  - destruct (exists_last (l := d :: rest)) as (middle & z & ->);
      [discriminate |].
    eexists. split; [apply prepareAuthorLine_many | easy].
Qed.

(** ** Subjects *)

(** In the table of subject names no identifier is given twice. *)
Lemma msaNames_injective (name1 name2 slug : string) :
  msaNames !! name1 = Some slug -> msaNames !! name2 = Some slug ->
  name1 = name2.
Proof.
  intros H1 H2.
  apply elem_of_map_to_list, list_elem_of_In in H1.
  apply elem_of_map_to_list, list_elem_of_In in H2.
  assert (Hall :
    forallb (fun p1 : string * string =>
      forallb (fun p2 : string * string =>
        implb (String.eqb (snd p1) (snd p2)) (String.eqb (fst p1) (fst p2)))
        (map_to_list msaNames))
      (map_to_list msaNames) = true) by (vm_compute; reflexivity).
  rewrite forallb_forall in Hall. specialize (Hall _ H1).
  rewrite forallb_forall in Hall. specialize (Hall _ H2).
  cbn [fst snd] in Hall. rewrite String.eqb_refl in Hall.
  apply String.eqb_eq. exact Hall.
Qed.

(** X5.  The subjects of a list of names: one subject per name, with the
    names unchanged and in the same order; and two subjects that carry the
    same identifier of the table carry the same name. *)
Theorem getSubjects_names_and_ids (subjectNames : list string) :
  map subject_name (getSubjects subjectNames) = subjectNames
  /\ (forall s1 s2 slug,
        In s1 (getSubjects subjectNames) ->
        In s2 (getSubjects subjectNames) ->
        subject_id s1 = Some slug -> subject_id s2 = Some slug ->
        subject_name s1 = subject_name s2).
Proof.
  unfold getSubjects. split.
  - rewrite map_map. cbn. apply map_id.
  - intros s1 s2 slug Hin1 Hin2 Hid1 Hid2.
    apply in_map_iff in Hin1 as (n1 & <- & _).
    apply in_map_iff in Hin2 as (n2 & <- & _).
    cbn in *. eapply msaNames_injective; eassumption.
Qed.

Lemma getSubjects_names_and_ids_witness :
  subject_name {| subject_id := Some "ecology"; subject_name := "Ecology" |}
  = subject_name {| subject_id := Some "ecology"; subject_name := "Ecology" |}.
Proof.
  apply (proj2 (getSubjects_names_and_ids ["Medicine"; "Ecology"; "Other"])
           _ _ "ecology");
    first [reflexivity | cbn; tauto].
Defined.

(** ** The response writer *)

(** X6.  [writeResponse] never throws, whatever the state of the response.
    On a response whose headers have not gone out it sets the status code,
    the body, the cache policy (public for a 200, private otherwise) and
    the [Vary] header. *)
Theorem writeResponse_writes (contentType : string) (code : Z)
  (message : Message) (w : World) :
  snd (writeResponse contentType code message w) = Normal tt
  /\ (headersSent (res w) = false ->
      let r := res (fst (writeResponse contentType code message w)) in
      statusCode r = code
      /\ body r = Some message
      /\ headers r !! "Cache-Control"
         = Some (HString
                   (if code =? 200
                    then "max-age=300, public, stale-if-error=86400, stale-while-revalidate=300"
                    else "must-revalidate, no-cache, private"))
      /\ headers r !! "Vary" = Some (HList ["Accept"; "Authorization"])).
Proof.
  rewrite writeResponse_spec. split; [reflexivity |].
  intros Hunsent. cbn. rewrite Hunsent. cbn.
  repeat split.
  - rewrite lookup_insert_ne by discriminate. apply lookup_insert_eq.
  - apply lookup_insert_eq.
Qed.

Lemma writeResponse_writes_witness :
  headers (res (fst (writeResponse "application/json" 404
                       (BadRequestMessage "not found" None) fresh)))
    !! "Cache-Control"
  = Some (HString "must-revalidate, no-cache, private").
Proof.
  apply (proj2 (writeResponse_writes "application/json" 404
                  (BadRequestMessage "not found" None) fresh)).
  reflexivity.
Defined.

(** X7.  The item handler answers every request with a 404 whose body is
    the "not found" problem without detail and whose cache policy is
    private, whatever the request holds, and it does not throw. *)
Theorem app_get_item_not_found (req : Request) (w : World) :
  headersSent (res w) = false ->
  snd (app_get_item req w) = Normal tt
  /\ received (fst (app_get_item req w))
     = Some (404, BadRequestMessage "not found" None)
  /\ headers (res (fst (app_get_item req w))) !! "Cache-Control"
     = Some (HString "must-revalidate, no-cache, private").
Proof.
  intros Hunsent. unfold app_get_item, errorNotFoundRequest.
  rewrite writeResponse_spec. unfold received. cbn. rewrite Hunsent. cbn.
  repeat split.
  rewrite lookup_insert_ne by discriminate.
  apply lookup_insert_eq.
Qed.

Lemma app_get_item_not_found_witness :
  received (fst (app_get_item (request [("page", "1")]) fresh))
  = Some (404, BadRequestMessage "not found" None).
Proof.
  apply (app_get_item_not_found (request [("page", "1")]) fresh).
  reflexivity.
Defined.

(** ** The list handler, after the checks *)

Lemma app_get_list_respond (env : Env) (req : Request) (w : World) :
  app_get_list env req w
  = respond env req (after_errors (validationErrors req) w).
Proof.
  unfold app_get_list. cbv zeta. rewrite !bind_check.
  unfold validationErrors, respond, requestPage, requestPerPage,
    requestOrder, requestUseDate, requestStartDate, requestEndDate.
  cbv zeta.
  repeat match goal with
         | |- context [if ?c then after_write _ _ _ _ else _] =>
             destruct c
         end; reflexivity.
Qed.

(** The four ways a call of [fetchVersionsNoContent] can go. *)
Section FetchRuns.
Variables (env : Env) (page perPage : number).
Variables (order useDate startDate endDate : string) (w : World).

Let run :=
  fetchVersionsNoContent env page perPage order useDate startDate endDate w.
Let url := versions_url env page perPage order useDate startDate endDate.
Let asked (u : string) : World :=
  {| res := res w; trace := trace w ++ [Fetched u] |}.

Lemma fetch_run_no_url (e : JSError) : url = Throw e -> run = (w, Throw e).
Proof.
  subst run url. intros Hurl.
  unfold fetchVersionsNoContent, mbind, io_mbind, io_bind, lift.
  now rewrite Hurl.
Qed.

Lemma fetch_run_network (u : string) (e : JSError) :
  url = Normal u -> fetch env u = Throw e -> run = (asked u, Throw e).
Proof.
  subst run url asked. intros Hurl Hfetch.
  unfold fetchVersionsNoContent, mbind, io_mbind, io_bind, lift, log.
  now rewrite Hurl, Hfetch.
Qed.

Lemma fetch_run_not_ok (u : string) (response : UpstreamResponse) :
  url = Normal u -> fetch env u = Normal response -> ok response = false ->
  run = (asked u,
         Throw (Error ("error fetching (" +:+ u +:+ "): "
                       +:+ statusText response))).
Proof.
  subst run url asked. intros Hurl Hfetch Hok.
  unfold fetchVersionsNoContent, mbind, io_mbind, io_bind, lift, log.
  now rewrite Hurl, Hfetch, Hok.
Qed.

Lemma fetch_run_not_json (u : string) (response : UpstreamResponse)
  (e : JSError) :
  url = Normal u -> fetch env u = Normal response -> ok response = true ->
  response_json response = Throw e -> run = (asked u, Throw e).
Proof.
  subst run url asked. intros Hurl Hfetch Hok Hjson.
  unfold fetchVersionsNoContent, mbind, io_mbind, io_bind, lift, log.
  rewrite Hurl, Hfetch, Hok. cbn. now rewrite Hjson.
Qed.

Lemma fetch_run_ok (u : string) (response : UpstreamResponse)
  (records : list EnhancedArticleNoContent) :
  url = Normal u -> fetch env u = Normal response -> ok response = true ->
  response_json response = Normal records ->
  run = (asked u,
         Normal {| total := responseTotal response records;
                   items := records |}).
Proof.
  subst run url asked. intros Hurl Hfetch Hok Hjson.
  unfold fetchVersionsNoContent, mbind, io_mbind, io_bind, lift, log.
  rewrite Hurl, Hfetch, Hok. cbn. now rewrite Hjson.
Qed.

End FetchRuns.

(** The record transformer never throws. *)
Lemma enhancedArticleNoContentToSnippet_total (r : EnhancedArticleNoContent) :
  exists snippet, enhancedArticleNoContentToSnippet r = Normal snippet.
Proof.
  unfold enhancedArticleNoContentToSnippet.
  destruct (prepareAuthorLine_total (default [] (authors (article r))))
    as [line ->].
  eexists. reflexivity.
Qed.

Lemma mapM_snippets (records : list EnhancedArticleNoContent) :
  exists snippets,
    mapM enhancedArticleNoContentToSnippet records = Normal snippets
    /\ Forall2 (fun r s => enhancedArticleNoContentToSnippet r = Normal s)
         records snippets.
Proof.
  induction records as [|r records (snippets & Hmap & Hall)].
  - exists []. split; [reflexivity | constructor].
  - destruct (enhancedArticleNoContentToSnippet_total r) as [s Hs].
    exists (s :: snippets). split.
    + cbn. rewrite Hs. cbn. rewrite Hmap. reflexivity.
    + now constructor.
Qed.

(** X8.  A request that passes the checks, with an upstream that answers
    with a list of records: the handler completes, asks the upstream once
    and sends a 200 list whose items are the snippets of the records, one
    per record and in their order, and whose total is the one of the
    upstream client. *)
Theorem app_get_list_success (env : Env) (req : Request) (url : string)
  (response : UpstreamResponse) (records : list EnhancedArticleNoContent) :
  validationErrors req = [] ->
  requestUrl env req = Normal url ->
  fetch env url = Normal response ->
  ok response = true ->
  response_json response = Normal records ->
  exists snippets,
    Forall2 (fun r s => enhancedArticleNoContentToSnippet r = Normal s)
      records snippets
    /\ app_get_list env req fresh
       = ({| res :=
               written
                 "application/vnd.elife.reviewed-preprint-list+json; version=1"
                 200
                 (ReviewedPreprintListResponse
                    (responseTotal response records) snippets)
                 (res fresh);
             trace :=
               [Fetched url;
                WriteResponseCalled 200
                  (ReviewedPreprintListResponse
                     (responseTotal response records) snippets)] |},
          Normal tt).
Proof.
  intros Hvalid Hurl Hfetch Hok Hjson.
  destruct (mapM_snippets records) as (snippets & Hmap & Hall).
  exists snippets. split; [exact Hall |].
  rewrite app_get_list_respond, Hvalid.
  unfold respond, mbind, io_mbind, io_bind, lift.
  rewrite (fetch_run_ok _ _ _ _ _ _ _ _ url response records)
    by assumption.
  cbn [items total]. rewrite Hmap.
  now rewrite writeResponse_spec.
Qed.

Lemma app_get_list_success_witness :
  let response :=
    {| ok := true; statusText := "OK";
       response_headers := {[ "x-total-count" := "50" ]};
       response_json := Normal [sample_record; sample_record] |} in
  let message snippets :=
    ReviewedPreprintListResponse
      (responseTotal response [sample_record; sample_record]) snippets in
  exists snippets,
    Forall2 (fun r s => enhancedArticleNoContentToSnippet r = Normal s)
      [sample_record; sample_record] snippets
    /\ app_get_list (sample_env (Some "50"))
         (request [("page", "1"); ("per-page", "2")]) fresh
       = ({| res :=
               written
                 "application/vnd.elife.reviewed-preprint-list+json; version=1"
                 200 (message snippets) (res fresh);
             trace :=
               [Fetched "http://wiremock:3000/api/preprints-no-content?page=1&per-page=2&order=desc";
                WriteResponseCalled 200 (message snippets)] |},
          Normal tt).
Proof.
  apply (app_get_list_success (sample_env (Some "50"))
           (request [("page", "1"); ("per-page", "2")])
           "http://wiremock:3000/api/preprints-no-content?page=1&per-page=2&order=desc"
           {| ok := true; statusText := "OK";
              response_headers := {[ "x-total-count" := "50" ]};
              response_json := Normal [sample_record; sample_record] |}
           [sample_record; sample_record]);
    vm_compute; reflexivity.
Defined.

(** X9.  A request that passes the checks, with an upstream that fails: a
    network failure, an answer that is not ok or a body that is not JSON
    makes the handler throw (the answer that is not ok with the URL and the
    status text in the message), and no response is written: the response
    object is as the handler received it. *)
Theorem app_get_list_upstream_failure (env : Env) (req : Request)
  (url : string) :
  validationErrors req = [] ->
  requestUrl env req = Normal url ->
  (forall e,
     fetch env url = Throw e ->
     app_get_list env req fresh
     = ({| res := res fresh; trace := [Fetched url] |}, Throw e))
  /\ (forall response,
        fetch env url = Normal response -> ok response = false ->
        app_get_list env req fresh
        = ({| res := res fresh; trace := [Fetched url] |},
           Throw (Error ("error fetching (" +:+ url +:+ "): "
                         +:+ statusText response))))
  /\ (forall response e,
        fetch env url = Normal response -> ok response = true ->
        response_json response = Throw e ->
        app_get_list env req fresh
        = ({| res := res fresh; trace := [Fetched url] |}, Throw e)).
Proof.
  intros Hvalid Hurl. repeat split.
  - intros e Hfetch. rewrite app_get_list_respond, Hvalid.
    unfold respond, mbind, io_mbind, io_bind.
    now rewrite (fetch_run_network _ _ _ _ _ _ _ _ url e).
  - intros response Hfetch Hok. rewrite app_get_list_respond, Hvalid.
    unfold respond, mbind, io_mbind, io_bind.
    now rewrite (fetch_run_not_ok _ _ _ _ _ _ _ _ url response).
  - intros response e Hfetch Hok Hjson.
    rewrite app_get_list_respond, Hvalid.
    unfold respond, mbind, io_mbind, io_bind.
    now rewrite (fetch_run_not_json _ _ _ _ _ _ _ _ url response e).
Qed.

Lemma app_get_list_upstream_failure_witness :
  let env :=
    {| now := 0; LocalTZA := 0; parse_fallback := fun _ => None;
       fetch := fun _ =>
         Normal {| ok := false; statusText := "Bad Gateway";
                   response_headers := ∅;
                   response_json := Throw (SyntaxError "no body") |} |} in
  app_get_list env (request []) fresh
  = ({| res := res fresh;
        trace := [Fetched "http://wiremock:3000/api/preprints-no-content?page=1&per-page=20&order=desc"] |},
     Throw (Error "error fetching (http://wiremock:3000/api/preprints-no-content?page=1&per-page=20&order=desc): Bad Gateway")).
Proof.
  intros env.
  apply (proj1 (proj2
           (app_get_list_upstream_failure env (request [])
              "http://wiremock:3000/api/preprints-no-content?page=1&per-page=20&order=desc"
              eq_refl eq_refl))
           {| ok := false; statusText := "Bad Gateway";
              response_headers := ∅;
              response_json := Throw (SyntaxError "no body") |});
    reflexivity.
Defined.

(** X10.  Failing checks do not stop the handler: whenever the URL can be
    built, the upstream is asked for it exactly once, after the problems of
    the failing checks have been written. *)
Theorem app_get_list_always_fetches (env : Env) (req : Request)
  (url : string) (w : World) :
  requestUrl env req = Normal url ->
  exists rest,
    trace (fst (app_get_list env req w))
    = trace w
      ++ map (fun detail => WriteResponseCalled 400 (problem detail))
             (validationErrors req)
      ++ Fetched url :: rest
    /\ List.filter is_fetch rest = [].
Proof.
  intros Hurl. rewrite app_get_list_respond.
  set (w1 := after_errors (validationErrors req) w).
  assert (Htrace : trace w1 = trace w
            ++ map (fun detail => WriteResponseCalled 400 (problem detail))
                   (validationErrors req))
    by apply after_errors_trace.
  clearbody w1.
  unfold respond, mbind, io_mbind, io_bind.
  destruct (fetch env url) as [response | e] eqn:Hfetch.
  - destruct (ok response) eqn:Hok.
    + destruct (response_json response) as [records | e] eqn:Hjson.
      * rewrite (fetch_run_ok _ _ _ _ _ _ _ _ url response records)
          by assumption.
        unfold lift. cbn [items].
        destruct (mapM enhancedArticleNoContentToSnippet records)
          as [snippets | e].
        -- rewrite writeResponse_spec. cbn. rewrite Htrace.
           eexists. rewrite <- !app_assoc. split; reflexivity.
        -- exists []. cbn. rewrite Htrace, <- app_assoc. now split.
      * rewrite (fetch_run_not_json _ _ _ _ _ _ _ _ url response e)
          by assumption.
        exists []. cbn. rewrite Htrace, <- app_assoc. now split.
    + rewrite (fetch_run_not_ok _ _ _ _ _ _ _ _ url response)
        by assumption.
      exists []. cbn. rewrite Htrace, <- app_assoc. now split.
  - rewrite (fetch_run_network _ _ _ _ _ _ _ _ url e) by assumption.
    exists []. cbn. rewrite Htrace, <- app_assoc. now split.
Qed.

Lemma app_get_list_always_fetches_witness :
  exists rest,
    trace (fst (app_get_list (sample_env None)
                  (request [("order", "up")]) fresh))
    = trace fresh
      ++ map (fun detail => WriteResponseCalled 400 (problem detail))
             (validationErrors (request [("order", "up")]))
      ++ Fetched "http://wiremock:3000/api/preprints-no-content?page=1&per-page=20&order=up"
         :: rest
    /\ List.filter is_fetch rest = [].
Proof.
  apply (app_get_list_always_fetches (sample_env None)
           (request [("order", "up")])
           "http://wiremock:3000/api/preprints-no-content?page=1&per-page=20&order=up"
           fresh).
  vm_compute. reflexivity.
Defined.

Lemma versions_url_invalid_end_date (env : Env) (page perPage : number)
  (order useDate startDate endDate : string) :
  endDate <> "" ->
  JSDate.parse (parse_fallback env) endDate = None ->
  versions_url env page perPage order useDate startDate endDate
  = Throw (RangeError "Invalid time value").
Proof.
  intros Hne Hparse. unfold versions_url, JS.truthy.
  destruct (String.eqb_spec endDate "") as [-> | _]; [congruence |].
  cbn [negb]. now rewrite Hparse.
Qed.

(** X11.  An end date that is not empty and does not parse: once the checks
    are through the handler throws a [RangeError], without asking the
    upstream and without writing a 200. *)
Theorem app_get_list_unparseable_end_date (env : Env) (req : Request)
  (w : World) :
  requestEndDate req <> "" ->
  JSDate.parse (parse_fallback env) (requestEndDate req) = None ->
  app_get_list env req w
  = (after_errors (validationErrors req) w,
     Throw (RangeError "Invalid time value")).
Proof.
  intros Hne Hparse. rewrite app_get_list_respond.
  unfold respond, mbind, io_mbind, io_bind.
  rewrite (fetch_run_no_url _ _ _ _ _ _ _ _ (RangeError "Invalid time value"));
    [reflexivity |].
  now apply versions_url_invalid_end_date.
Qed.

Lemma app_get_list_unparseable_end_date_witness :
  app_get_list (sample_env None) (request [("end-date", "tomorrow")]) fresh
  = (after_errors (validationErrors (request [("end-date", "tomorrow")]))
       fresh,
     Throw (RangeError "Invalid time value")).
Proof.
  apply (app_get_list_unparseable_end_date (sample_env None)
           (request [("end-date", "tomorrow")]) fresh);
    vm_compute; [discriminate | reflexivity].
Defined.

(** ** The URL of the upstream request *)

Lemma truthy_append (s1 s2 : string) :
  JS.truthy s1 = true -> JS.truthy (s1 +:+ s2) = true.
Proof. destruct s1; [discriminate | reflexivity]. Qed.

(** X12.  The URL without an end date never throws.  Its query is, joined
    by [&]: the page, the page size and the order, which are always there
    (the order even when it is empty), then [use-date=firstPublished] when
    the use-date is "published" and nothing for any other value, then the
    start date as it was given when it is not empty. *)
Theorem versions_url_without_end_date (env : Env) (page perPage : number)
  (order useDate startDate : string) :
  versions_url env page perPage order useDate startDate ""
  = Normal
      ("http://wiremock:3000/api/preprints-no-content?"
       +:+ JS.join "&"
             (["page=" +:+ toString page;
               "per-page=" +:+ toString perPage;
               "order=" +:+ order]
              ++ (if String.eqb useDate "published"
                  then ["use-date=firstPublished"] else [])
              ++ (if String.eqb startDate "" then []
                  else ["start-date=" +:+ startDate]))).
Proof.
  unfold versions_url. cbn [JS.truthy String.eqb negb mbind completion_mbind
    completion_bind List.filter].
  rewrite !truthy_append by reflexivity.
  f_equal. rewrite join_cons. cbn [JS.join]. f_equal. f_equal.
  unfold JS.truthy.
  destruct (String.eqb useDate "published"), (String.eqb startDate "");
    reflexivity.
Qed.

(** X13.  The end date sent upstream depends on the end date of the request
    only through its day of the month: two end dates, not empty, that fall
    on the same day of the month give the same URL, whatever their months
    and years. *)
Theorem versions_url_end_date_day_only (env : Env) (page perPage : number)
  (order useDate startDate endDate1 endDate2 : string) :
  endDate1 <> "" -> endDate2 <> "" ->
  JSDate.getUTCDate (JSDate.parse (parse_fallback env) endDate1)
  = JSDate.getUTCDate (JSDate.parse (parse_fallback env) endDate2) ->
  versions_url env page perPage order useDate startDate endDate1
  = versions_url env page perPage order useDate startDate endDate2.
Proof.
  intros H1 H2 Hday. unfold versions_url, JS.truthy.
  destruct (String.eqb_spec endDate1 "") as [-> | _]; [congruence |].
  destruct (String.eqb_spec endDate2 "") as [-> | _]; [congruence |].
  now rewrite Hday.
Qed.

Lemma versions_url_end_date_day_only_witness :
  versions_url (sample_env None) (of_Z 1) (of_Z 20) "desc" "default" ""
    "2023-05-01"
  = versions_url (sample_env None) (of_Z 1) (of_Z 20) "desc" "default" ""
      "1999-12-01".
Proof.
  apply (versions_url_end_date_day_only (sample_env None) (of_Z 1) (of_Z 20)
           "desc" "default" "" "2023-05-01" "1999-12-01");
    [discriminate | discriminate | vm_compute; reflexivity].
Defined.

(** X14.  A request that gives none of the six parameters passes every
    check and asks the upstream for the first page of twenty, newest
    first, whatever else the request holds. *)
Theorem app_get_list_defaults (env : Env) (req : Request) :
  query req !! "per-page" = None -> query req !! "page" = None ->
  query req !! "order" = None -> query req !! "use-date" = None ->
  query req !! "start-date" = None -> query req !! "end-date" = None ->
  validationErrors req = []
  /\ requestUrl env req
     = Normal "http://wiremock:3000/api/preprints-no-content?page=1&per-page=20&order=desc".
Proof.
  intros HperPage Hpage Horder HuseDate Hstart Hend.
  unfold validationErrors, requestUrl, requestPage, requestPerPage,
    requestOrder, requestUseDate, requestStartDate, requestEndDate,
    queryParam.
  rewrite HperPage, Hpage, Horder, HuseDate, Hstart, Hend.
  split; vm_compute; reflexivity.
Qed.

Lemma app_get_list_defaults_witness :
  validationErrors (request [("utm_source", "newsletter")]) = []
  /\ requestUrl (sample_env None) (request [("utm_source", "newsletter")])
     = Normal "http://wiremock:3000/api/preprints-no-content?page=1&per-page=20&order=desc".
Proof.
  apply (app_get_list_defaults (sample_env None)
           (request [("utm_source", "newsletter")]));
    vm_compute; reflexivity.
Defined.

(** ** The record transformer, at its edges *)

(** X15.  The transformer never throws.  The snippet carries the PDF URL of
    the record as it is, the rendered title, the subjects of the record
    (an empty list, not an absent field, when the record has none) and the
    author line of its authors, which is absent exactly when the record
    has no authors, the field missing or empty. *)
Theorem enhancedArticleNoContentToSnippet_defaults
  (r : EnhancedArticleNoContent) :
  exists snippet,
    enhancedArticleNoContentToSnippet r = Normal snippet
    /\ snippet_pdf snippet = pdfUrl r
    /\ snippet_title snippet = Some (contentToHtml (title (article r)))
    /\ snippet_subjects snippet = Some (getSubjects (default [] (subjects r)))
    /\ prepareAuthorLine (default [] (authors (article r)))
       = Normal (snippet_authorLine snippet)
    /\ (snippet_authorLine snippet = None
        <-> authors (article r) = None \/ authors (article r) = Some []).
Proof.
  unfold enhancedArticleNoContentToSnippet.
  destruct (authors (article r)) as [[|a rest] |] eqn:Hauthors.
  - eexists. repeat split; auto.
  - change (default [] (Some (a :: rest))) with (a :: rest).
    destruct (prepareAuthorLine_total (a :: rest)) as [line Hline].
    rewrite Hline. eexists. repeat split; cbn.
    + intros ->. exfalso. revert Hline.
      destruct rest as [|b [|c [|d rest]]]; try discriminate.
      destruct (exists_last (l := d :: rest)) as (middle & z & ->);
        [discriminate |].
      rewrite prepareAuthorLine_many. discriminate.
    + intros [H | H]; discriminate H.
  - eexists. repeat split; auto.
Qed.

(** X16.  A record whose publication date is [null] is not refused: its
    [versionDate] and [statusDate] are those of the epoch. *)
Theorem enhancedArticleNoContentToSnippet_null_published
  (r : EnhancedArticleNoContent) :
  published r = None ->
  exists snippet,
    enhancedArticleNoContentToSnippet r = Normal snippet
    /\ snippet_versionDate snippet = Some "1970-01-01T00:00:00Z"
    /\ snippet_statusDate snippet = Some "1970-01-01T00:00:00Z".
Proof.
  intros Hnull. unfold enhancedArticleNoContentToSnippet.
  destruct (prepareAuthorLine_total (default [] (authors (article r))))
    as [line ->].
  rewrite Hnull. eexists. split; [reflexivity |].
  split; vm_compute; reflexivity.
Qed.

Lemma enhancedArticleNoContentToSnippet_null_published_witness :
  let r :=
    {| id := "1"; msid := "1"; doi := "d"; versionIdentifier := "1";
       versionDoi := None; preprintDoi := "p"; preprintUrl := "u";
       preprintPosted := Some 0; sentForReview := None; published := None;
       publishedYear := None; volume := None; eLocationId := None;
       subjects := None; pdfUrl := None; relatedContent := None;
       article := {| title := CUndefined; authors := None; licenses := [];
                     headings := []; references := [] |};
       firstPublished := Some 0 |} in
  exists snippet,
    enhancedArticleNoContentToSnippet r = Normal snippet
    /\ snippet_versionDate snippet = Some "1970-01-01T00:00:00Z"
    /\ snippet_statusDate snippet = Some "1970-01-01T00:00:00Z".
Proof.
  intros r. apply (enhancedArticleNoContentToSnippet_null_published r).
  reflexivity.
Defined.

(** ** The earlier handler *)

(** X18.  The earlier list handler, on a fresh response.  With no failing
    check it sends a 200 with an empty list and total 0.  With exactly one
    failing check it sends the 400 problem of that check and skips the 200.
    With two or more failing checks the client receives the problem of the
    first, and the write of the second throws [ERR_HTTP_HEADERS_SENT]: the
    remaining checks do not run. *)
Theorem earlier_app_get_list_outcomes (req : Request) :
  match validationErrors req with
  | [] =>
      received (fst (Earlier.app_get_list req fresh))
      = Some (200, ReviewedPreprintListResponse (of_Z 0) [])
      /\ snd (Earlier.app_get_list req fresh) = Normal tt
  | [detail] =>
      received (fst (Earlier.app_get_list req fresh))
      = Some (400, problem detail)
      /\ snd (Earlier.app_get_list req fresh) = Normal tt
  | first :: second :: _ =>
      received (fst (Earlier.app_get_list req fresh))
      = Some (400, problem first)
      /\ snd (Earlier.app_get_list req fresh) = Throw ERR_HTTP_HEADERS_SENT
      /\ trace (fst (Earlier.app_get_list req fresh))
         = [WriteResponseCalled 400 (problem first);
            WriteResponseCalled 400 (problem second)]
  end.
Proof.
  unfold Earlier.app_get_list, validationErrors. cbv zeta.
  repeat match goal with
         | |- context [if ?c then Earlier.errorBadRequest _ else _] =>
             destruct c
         end;
    vm_compute; repeat split.
Qed.

(** ** The checks, one by one *)

Section Checks.
Variables (b1 b2 b3 b4 b5 b6 : bool).

Let failed : list string :=
  map snd (List.filter fst
    [(b1, "expecting positive integer for 'page' parameter");
     (b2, "expecting positive integer between 1 and 100 for 'per-page' parameter");
     (b3, "expecting either 'asc' or 'desc' for 'order' parameter");
     (b4, "expecting either 'default' or 'published' for 'use-date' parameter");
     (b5, "expecting YYYY-MM-DD format for 'start-date' parameter");
     (b6, "expecting YYYY-MM-DD format for 'end-date' parameter")]).

Local Ltac by_cases :=
  subst failed; destruct b1, b2, b3, b4, b5, b6; cbn;
  split; intros H; try reflexivity; try discriminate H;
  repeat (destruct H as [H | H]; try discriminate H); tauto.

Lemma failed_page :
  In "expecting positive integer for 'page' parameter" failed <-> b1 = true.
Proof. by_cases. Qed.

Lemma failed_per_page :
  In "expecting positive integer between 1 and 100 for 'per-page' parameter"
     failed <-> b2 = true.
Proof. by_cases. Qed.

Lemma failed_order :
  In "expecting either 'asc' or 'desc' for 'order' parameter" failed
  <-> b3 = true.
Proof. by_cases. Qed.

Lemma failed_use_date :
  In "expecting either 'default' or 'published' for 'use-date' parameter"
     failed <-> b4 = true.
Proof. by_cases. Qed.

End Checks.

(** X19.  The order check fails exactly when the order parameter is given,
    not empty, and neither "asc" nor "desc"; the use-date check exactly
    when the use-date parameter is given, not empty, and neither "default"
    nor "published".  An empty value counts as absent. *)
Theorem order_and_use_date_checks (req : Request) :
  (In "expecting either 'asc' or 'desc' for 'order' parameter"
      (validationErrors req)
   <-> exists value,
         query req !! "order" = Some value
         /\ value <> "" /\ value <> "asc" /\ value <> "desc")
  /\ (In "expecting either 'default' or 'published' for 'use-date' parameter"
         (validationErrors req)
      <-> exists value,
            query req !! "use-date" = Some value
            /\ value <> "" /\ value <> "default" /\ value <> "published").
Proof.
  unfold validationErrors. cbv zeta. split.
  - rewrite failed_order. unfold queryParam, or_toString, JS.truthy.
    destruct (query req !! "order") as [value |]; cbn.
    + destruct (String.eqb_spec value "") as [-> | Hne]; cbn.
      * split; [discriminate | intros (v & [= <-] & H & _); congruence].
      * destruct (String.eqb_spec value "asc") as [-> | Hasc]; cbn.
        { split; [discriminate | intros (v & [= <-] & _ & H & _); congruence]. }
        destruct (String.eqb_spec value "desc") as [-> | Hdesc]; cbn.
        { split; [discriminate | intros (v & [= <-] & _ & _ & H); congruence]. }
        split; [eauto | reflexivity].
    + split; [discriminate | intros (v & [=] & _)].
  - rewrite failed_use_date. unfold queryParam, or_toString, JS.truthy.
    destruct (query req !! "use-date") as [value |]; cbn.
    + destruct (String.eqb_spec value "") as [-> | Hne]; cbn.
      * split; [discriminate | intros (v & [= <-] & H & _); congruence].
      * destruct (String.eqb_spec value "default") as [-> | Hdefault]; cbn.
        { split; [discriminate | intros (v & [= <-] & _ & H & _); congruence]. }
        destruct (String.eqb_spec value "published") as [-> | Hpub]; cbn.
        { split; [discriminate | intros (v & [= <-] & _ & _ & H); congruence]. }
        split; [eauto | reflexivity].
    + split; [discriminate | intros (v & [=] & _)].
Qed.

(** ** Decimal numerals *)

From Stdlib Require DecimalPos.

Lemma string_of_uint_revapp (l d : Decimal.uint) :
  NilEmpty.string_of_uint (Decimal.revapp l d)
  = NilEmpty.string_of_uint (Decimal.revapp l Decimal.Nil)
    +:+ NilEmpty.string_of_uint d.
Proof.
  revert d. induction l; intros d; cbn [Decimal.revapp];
    try reflexivity;
    rewrite IHl, (IHl (_ Decimal.Nil)), append_assoc; reflexivity.
Qed.

Lemma to_uint_rev (n : N) :
  n <> 0%N -> N.to_uint n = Decimal.rev (DecimalPos.Unsigned.to_lu n).
Proof. destruct n; [congruence | reflexivity]. Qed.

(** The numeral of [10 * q + r] is the numeral of [q] followed by the digit
    [r]. *)
Lemma digits_step (q r : Z) :
  0 < q -> 0 <= r < 10 -> digits (10 * q + r) = digits q +:+ digits r.
Proof.
  intros Hq Hr. unfold digits.
  assert (Hn : Z.to_N (10 * q + r) = (Z.to_N r + 10 * Z.to_N q)%N) by lia.
  rewrite Hn.
  destruct (Z.to_N q) as [|p] eqn:Hp; [lia |].
  rewrite !to_uint_rev by lia.
  assert (Hr' : (Z.to_N r < 10)%N) by lia.
  assert (Hlu : forall k : nat,
    DecimalPos.Unsigned.to_lu (N.of_nat k + 10 * N.pos p)
    = Nat.iter k Decimal.Little.succ
        (Decimal.D0 (DecimalPos.Unsigned.to_lu (N.pos p)))).
  { induction k as [|k IH].
    - cbn [Nat.iter N.of_nat]. rewrite N.add_0_l.
      apply DecimalPos.Unsigned.to_ldec_tenfold.
    - rewrite Nat2N.inj_succ, N.add_succ_l,
        DecimalPos.Unsigned.to_lu_succ, IH. reflexivity. }
  specialize (Hlu (N.to_nat (Z.to_N r))). rewrite N2Nat.id in Hlu.
  rewrite Hlu. clear Hlu.
  generalize (DecimalPos.Unsigned.to_lu (N.pos p)). intros l.
  assert (Hcases : In (Z.to_N r) [0; 1; 2; 3; 4; 5; 6; 7; 8; 9]%N).
  { cbn. lia. }
  cbn [In] in Hcases.
  repeat (destruct Hcases as [<- | Hcases];
          [match goal with
           | |- context [Nat.iter ?k ?f ?x] =>
               let v := eval cbv in (Nat.iter k f x) in
               change (Nat.iter k f x) with v
           end;
           unfold Decimal.rev; cbn [Decimal.revapp];
           rewrite string_of_uint_revapp; reflexivity |]).
  contradiction.
Qed.

Lemma ten_cases (r : Z) :
  0 <= r < 10 -> In r [0; 1; 2; 3; 4; 5; 6; 7; 8; 9].
Proof. intros Hr. cbn. lia. Qed.

Ltac by_digit r :=
  let H := fresh "Hcases" in
  match goal with
  | Hr : 0 <= r < 10 |- _ => pose proof (ten_cases r Hr) as H
  | Hr : 1 <= r < 10 |- _ =>
      assert (H : In r [1; 2; 3; 4; 5; 6; 7; 8; 9]) by (cbn; lia)
  end;
  cbn [In] in H;
  repeat (destruct H as [<- | H]; [try reflexivity |]);
  try contradiction.

(** A number below ten is written as its digit. *)
Lemma digits_digit (r : Z) :
  0 <= r < 10 -> digits r = String (digit_char r) EmptyString.
Proof. intros Hr. by_digit r. Qed.

(** Induction on the decimal numeral of a natural number. *)
Lemma decimal_ind (P : Z -> Prop) :
  (forall r, 0 <= r < 10 -> P r) ->
  (forall q r, 0 < q -> 0 <= r < 10 -> P q -> P (10 * q + r)) ->
  forall z, 0 <= z -> P z.
Proof.
  intros Hbase Hstep.
  assert (H : forall x, 0 <= x -> 0 <= x -> P x).
  { apply (Z_lt_induction (fun x => 0 <= x -> P x)).
    intros x IH Hx.
    destruct (Z_lt_le_dec x 10) as [Hlt | Hge].
    - apply Hbase. lia.
    - replace x with (10 * (x / 10) + x mod 10)
        by (Z.div_mod_to_equations; lia).
      apply Hstep; [| | apply IH]; Z.div_mod_to_equations; lia. }
  intros z Hz. now apply H.
Qed.

Lemma length_append (s1 s2 : string) :
  String.length (s1 +:+ s2) = (String.length s1 + String.length s2)%nat.
Proof.
  induction s1 as [|c s1 IH]; [reflexivity |].
  rewrite append_cons. cbn. now rewrite IH.
Qed.

Lemma digits_value_append (radix acc : Z) (s1 s2 : string) :
  digits_value radix acc (s1 +:+ s2)
  = digits_value radix (digits_value radix acc s1) s2.
Proof.
  revert acc. induction s1 as [|c s1 IH]; intros acc; [reflexivity |].
  rewrite append_cons. cbn. apply IH.
Qed.

Lemma digit_value_digit_char (r : Z) :
  0 <= r < 10 -> digit_value (digit_char r) = Some r.
Proof. intros Hr. by_digit r. Qed.

(** Reading a numeral gives the number back. *)
Lemma digits_value_digits (z : Z) :
  0 <= z -> digits_value 10 0 (digits z) = z.
Proof.
  intros Hz. pattern z. apply decimal_ind; [| | exact Hz].
  - intros r Hr. rewrite (digits_digit r) by exact Hr. cbn.
    now rewrite digit_value_digit_char.
  - intros q r Hq Hr IH.
    rewrite digits_step, digits_value_append, IH by assumption.
    rewrite (digits_digit r) by exact Hr. cbn.
    rewrite digit_value_digit_char by exact Hr. cbn. lia.
Qed.

(** A numeral is made of digits only: reading digits stops at its end. *)
Lemma span_digits_digits (z : Z) (rest : string) :
  0 <= z ->
  span_digits 10 (digits z +:+ rest)
  = (digits z +:+ fst (span_digits 10 rest), snd (span_digits 10 rest)).
Proof.
  intros Hz. revert rest. pattern z. apply decimal_ind; [| | exact Hz].
  - intros r Hr rest. rewrite (digits_digit r) by exact Hr.
    rewrite append_cons. cbn [span_digits].
    rewrite digit_char_is_digit by lia.
    destruct (span_digits 10 (EmptyString +:+ rest)) eqn:Hspan.
    change (EmptyString +:+ rest) with rest in Hspan. now rewrite Hspan.
  - intros q r Hq Hr IH rest.
    rewrite digits_step, append_assoc, IH by assumption.
    rewrite (digits_digit r) by exact Hr.
    rewrite append_cons. cbn [span_digits].
    rewrite digit_char_is_digit by lia.
    change (EmptyString +:+ rest) with rest.
    destruct (span_digits 10 rest) as [ds tl]. cbn [fst snd].
    now rewrite append_assoc.
Qed.

(** A positive number is written with a first digit that is not zero. *)
Lemma digits_head (z : Z) :
  0 < z ->
  exists d s, 1 <= d < 10 /\ digits z = String (digit_char d) s.
Proof.
  intros Hz. assert (H0 : 0 <= z) by lia. revert Hz. pattern z.
  apply decimal_ind; [| | exact H0].
  - intros r Hr Hpos. exists r, EmptyString.
    split; [lia | apply digits_digit, Hr].
  - intros q r Hq Hr IH _. destruct (IH Hq) as (d & s & Hd & Hs).
    exists d, (s +:+ digits r). split; [exact Hd |].
    now rewrite digits_step, Hs by assumption.
Qed.

(** The number of digits of a positive number. *)
Lemma digits_length (z : Z) :
  0 < z -> 10 ^ (Z.of_nat (String.length (digits z)) - 1) <= z.
Proof.
  intros Hz. assert (H0 : 0 <= z) by lia. revert Hz. pattern z.
  apply decimal_ind; [| | exact H0].
  - intros r Hr Hpos. rewrite (digits_digit r) by exact Hr. cbn. lia.
  - intros q r Hq Hr IH _. specialize (IH Hq).
    rewrite digits_step, length_append by assumption.
    rewrite (digits_digit r) by exact Hr. cbn [String.length].
    replace (Z.of_nat (String.length (digits q) + 1) - 1)
      with (Z.succ (Z.of_nat (String.length (digits q)) - 1)) by lia.
    destruct (digits_head q Hq) as (d & s & _ & Hs).
    rewrite Z.pow_succ_r; [lia |].
    rewrite Hs. cbn [String.length]. lia.
Qed.

Lemma zeros_snoc (n : nat) : zeros (S n) = zeros n +:+ "0".
Proof.
  induction n as [|n IH]; [reflexivity |].
  change (zeros (S (S n))) with (String "0" (zeros (S n))).
  change (zeros (S n) +:+ "0") with (String "0" (zeros n +:+ "0")).
  f_equal. exact IH.
Qed.

Lemma length_zeros (n : nat) : String.length (zeros n) = n.
Proof. induction n as [|n IH]; cbn; [reflexivity | now rewrite IH]. Qed.

(** Dropping the trailing zeros of a numeral and counting them. *)
Lemma strip_zeros_digits (fuel : nat) (s z0 : Z) :
  0 < s ->
  0 < fst (strip_zeros fuel s z0)
  /\ z0 <= snd (strip_zeros fuel s z0)
  /\ digits (fst (strip_zeros fuel s z0))
     +:+ zeros (Z.to_nat (snd (strip_zeros fuel s z0) - z0))
     = digits s.
Proof.
  revert s z0. induction fuel as [|fuel IH]; intros s z0 Hs.
  - cbn. replace (z0 - z0) with 0 by lia. cbn.
    rewrite append_nil_r. repeat split; lia.
  - cbn [strip_zeros].
    destruct (Z.eqb_spec (s mod 10) 0) as [Hmod | Hmod];
      destruct (Z.eqb_spec s 0) as [H0 | H0]; try lia; cbn [andb negb].
    + assert (Hq : 0 < s / 10) by (Z.div_mod_to_equations; lia).
      destruct (IH (s / 10) (z0 + 1) Hq) as (Hpos & Hle & Heq).
      split; [exact Hpos |]. split; [lia |].
      replace s with (10 * (s / 10) + 0) at 3
        by (Z.div_mod_to_equations; lia).
      rewrite digits_step by lia. rewrite <- Heq.
      replace (Z.to_nat (snd (strip_zeros fuel (s / 10) (z0 + 1)) - z0))
        with (S (Z.to_nat (snd (strip_zeros fuel (s / 10) (z0 + 1))
                           - (z0 + 1)))) by lia.
      rewrite zeros_snoc, append_assoc. reflexivity.
    + cbn. replace (z0 - z0) with 0 by lia. cbn.
      rewrite append_nil_r. repeat split; lia.
Qed.

(** The decimal form of a natural number below [10^21] is its numeral. *)
Lemma toString_of_Z (z : Z) :
  0 <= z < 10 ^ 21 -> toString (of_Z z) = digits z.
Proof.
  intros Hz. unfold toString, of_Z.
  destruct (Z.eqb_spec z 0) as [-> | Hne]; [reflexivity |].
  assert (Hpos : 0 < z) by lia.
  rewrite Z.abs_eq by lia.
  destruct (strip_zeros_digits (String.length (digits z)) z 0 Hpos)
    as (Hs & Hzc & Heq).
  destruct (strip_zeros (String.length (digits z)) z 0) as [s zc].
  cbn [fst snd] in *.
  replace (z <? 0) with false by (symmetry; apply Z.ltb_ge; lia).
  change (EmptyString +:+ ?x) with x.
  assert (Hlen : Z.of_nat (String.length (digits s)) + zc
                 = Z.of_nat (String.length (digits z))).
  { rewrite <- Heq, length_append, length_zeros. lia. }
  assert (Hshort : Z.of_nat (String.length (digits z)) <= 21).
  { pose proof (digits_length z Hpos) as Hten.
    destruct (Z_le_gt_dec (Z.of_nat (String.length (digits z))) 21)
      as [Hle | Hgt]; [exact Hle | exfalso].
    assert (10 ^ 21 <= 10 ^ (Z.of_nat (String.length (digits z)) - 1))
      by (apply Z.pow_le_mono_r; lia).
    lia. }
  unfold positive_to_string.
  replace (Z.of_nat (String.length (digits s)) + zc - Z.of_nat 0)
    with (Z.of_nat (String.length (digits s)) + zc) by lia.
  replace ((Z.of_nat (String.length (digits s))
            <=? Z.of_nat (String.length (digits s)) + zc)
           && (Z.of_nat (String.length (digits s)) + zc <=? 21))
    with true by (symmetry; apply andb_true_intro; split; lia).
  rewrite <- Heq. do 2 f_equal. lia.
Qed.

Lemma list_ascii_of_string_append (s1 s2 : string) :
  list_ascii_of_string (s1 +:+ s2)
  = list_ascii_of_string s1 ++ list_ascii_of_string s2.
Proof.
  induction s1 as [|c s1 IH]; [reflexivity |].
  rewrite append_cons. cbn. now rewrite IH.
Qed.

Lemma string_of_list_ascii_app (l1 l2 : list ascii) :
  string_of_list_ascii (l1 ++ l2)
  = string_of_list_ascii l1 +:+ string_of_list_ascii l2.
Proof.
  induction l1 as [|c l1 IH]; [reflexivity |].
  cbn. rewrite append_cons. now rewrite IH.
Qed.

Lemma rev_string_append (s1 s2 : string) :
  rev_string (s1 +:+ s2) = rev_string s2 +:+ rev_string s1.
Proof.
  unfold rev_string.
  now rewrite list_ascii_of_string_append, rev_app_distr,
    string_of_list_ascii_app.
Qed.

Lemma rev_string_involutive (s : string) : rev_string (rev_string s) = s.
Proof.
  unfold rev_string.
  now rewrite list_ascii_of_string_of_list_ascii, rev_involutive,
    string_of_list_ascii_of_string.
Qed.

Lemma trim_start_digit (d : Z) (s : string) :
  0 <= d < 10 ->
  trim_start (String (digit_char d) s) = String (digit_char d) s.
Proof. intros Hd. by_digit d. Qed.

(** A numeral starts and ends with a digit. *)
Lemma digits_first (z : Z) :
  0 <= z -> exists d s, 0 <= d < 10 /\ digits z = String (digit_char d) s.
Proof.
  intros Hz. destruct (Z.eq_dec z 0) as [-> | Hne].
  - exists 0, EmptyString. split; [lia | reflexivity].
  - destruct (digits_head z) as (d & s & Hd & Hs); [lia |].
    exists d, s. split; [lia | exact Hs].
Qed.

Lemma digits_last (z : Z) :
  0 <= z ->
  exists d s, 0 <= d < 10 /\ rev_string (digits z) = String (digit_char d) s.
Proof.
  intros Hz. destruct (Z_lt_le_dec z 10) as [Hlt | Hge].
  - exists z, EmptyString. split; [lia |].
    now rewrite digits_digit by lia.
  - replace z with (10 * (z / 10) + z mod 10)
      by (Z.div_mod_to_equations; lia).
    exists (z mod 10), (rev_string (digits (z / 10))).
    split; [Z.div_mod_to_equations; lia |].
    rewrite digits_step, rev_string_append
      by (Z.div_mod_to_equations; lia).
    now rewrite (digits_digit (z mod 10))
      by (Z.div_mod_to_equations; lia).
Qed.

(** There is nothing to trim off a numeral. *)
Lemma trim_start_digits (z : Z) : 0 <= z -> trim_start (digits z) = digits z.
Proof.
  intros Hz. destruct (digits_first z Hz) as (d & s & Hd & ->).
  now apply trim_start_digit.
Qed.

Lemma trim_digits (z : Z) : 0 <= z -> trim (digits z) = digits z.
Proof.
  intros Hz. unfold trim. rewrite trim_start_digits by exact Hz.
  destruct (digits_last z Hz) as (d & s & Hd & Hs).
  rewrite Hs, trim_start_digit by exact Hd.
  rewrite <- Hs. apply rev_string_involutive.
Qed.

Lemma span_digits_numeral (z : Z) :
  0 <= z -> span_digits 10 (digits z) = (digits z, EmptyString).
Proof.
  intros Hz. pose proof (span_digits_digits z EmptyString Hz) as H.
  rewrite append_nil_r in H. cbn in H. now rewrite append_nil_r in H.
Qed.

Lemma digits_not_empty (z : Z) :
  0 <= z -> String.eqb (digits z) "" = false.
Proof.
  intros Hz. destruct (digits_first z Hz) as (d & s & _ & ->). reflexivity.
Qed.

(** Integers below [2^53] are within the limits of the numbers. *)
Lemma of_decimal_integer (z : Z) :
  0 <= z < 2 ^ 53 -> of_decimal z 0 = of_Z z.
Proof.
  intros Hz. unfold of_decimal, of_Z.
  assert (Hlimit : 2 ^ 53 < 2 ^ 1024 - 2 ^ 970) by reflexivity.
  change (0 <=? 0) with true. cbn match.
  change (10 ^ 0) with 1. rewrite !Z.mul_1_r, Z.abs_eq by lia.
  destruct (Z.leb_spec (2 ^ 1024 - 2 ^ 970) z); [lia | reflexivity].
Qed.

Lemma read_sign_digit (d : Z) (s : string) :
  0 <= d < 10 ->
  read_sign (String (digit_char d) s) = (false, String (digit_char d) s).
Proof. intros Hd. by_digit d. Qed.

(** [parseInt] reads a numeral as its number. *)
Lemma parseInt10_digits (z : Z) :
  0 <= z < 2 ^ 53 -> parseInt10 (digits z) = of_Z z.
Proof.
  intros Hz. unfold parseInt10.
  rewrite trim_start_digits by lia.
  destruct (digits_first z) as (d & s & Hd & Hs); [lia |].
  rewrite Hs, read_sign_digit by exact Hd. rewrite <- Hs.
  rewrite span_digits_numeral, digits_not_empty, digits_value_digits by lia.
  now apply of_decimal_integer.
Qed.

Lemma StringToNumber_lead (d : Z) (s : string) :
  1 <= d < 10 ->
  trim (String (digit_char d) s) = String (digit_char d) s ->
  StringToNumber (String (digit_char d) s)
  = read_decimal false (String (digit_char d) s).
Proof.
  intros Hd Htrim. unfold StringToNumber. rewrite Htrim. by_digit d.
Qed.

(** [Number] reads a numeral as its number. *)
Lemma StringToNumber_digits (z : Z) :
  0 <= z < 2 ^ 53 -> StringToNumber (digits z) = of_Z z.
Proof.
  intros Hz. destruct (Z.eq_dec z 0) as [-> | Hne]; [reflexivity |].
  destruct (digits_head z) as (d & s & Hd & Hs); [lia |].
  pose proof (trim_digits z) as Htrim. rewrite Hs in Htrim |- *.
  rewrite StringToNumber_lead by (auto; apply Htrim; lia).
  rewrite <- Hs. unfold read_decimal.
  rewrite span_digits_numeral by lia.
  rewrite digits_not_empty by lia. cbn.
  rewrite append_nil_r, digits_value_digits by lia.
  now apply of_decimal_integer.
Qed.

Lemma le_of_Z (a b : Z) : le (of_Z a) (of_Z b) = (a <=? b).
Proof.
  unfold le, lt, JSNumber.eq, of_Z. change (10 ^ Z.of_nat 0) with 1.
  rewrite !Z.mul_1_r.
  destruct (Z.ltb_spec a b), (Z.eqb_spec a b), (Z.leb_spec a b);
    cbn; try reflexivity; lia.
Qed.

Lemma gt_of_Z (a b : Z) : gt (of_Z a) (of_Z b) = (b <? a).
Proof.
  unfold gt, lt, of_Z. change (10 ^ Z.of_nat 0) with 1.
  now rewrite !Z.mul_1_r.
Qed.

Lemma integerOrMinusOne_digits (z : Z) :
  0 <= z < 2 ^ 53 -> integerOrMinusOne (PString (digits z)) = of_Z z.
Proof.
  intros Hz. assert (Hsmall : 2 ^ 53 < 10 ^ 21) by reflexivity.
  unfold integerOrMinusOne, Number.
  rewrite StringToNumber_digits by exact Hz.
  rewrite toString_of_Z by lia.
  rewrite parseInt10_digits by exact Hz.
  rewrite toString_of_Z by lia.
  now rewrite String.eqb_refl.
Qed.

(** X20.  A page or page size written as the decimal numeral of a natural
    number below [2^53] reads as that number: its decimal form reads back
    as the same integer, so it is kept and not replaced by [-1].  The number
    itself has its numeral as decimal form, and [parseInt] reads the numeral
    as the number. *)
Theorem integerOrMinusOne_numeral (z : Z) :
  0 <= z < 2 ^ 53 ->
  integerOrMinusOne (PString (digits z)) = of_Z z
  /\ toString (of_Z z) = digits z
  /\ parseInt10 (digits z) = of_Z z.
Proof.
  intros Hz. assert (Hsmall : 2 ^ 53 < 10 ^ 21) by reflexivity.
  split; [now apply integerOrMinusOne_digits |].
  split; [apply toString_of_Z; lia | now apply parseInt10_digits].
Qed.

Lemma integerOrMinusOne_numeral_witness :
  integerOrMinusOne (PString (digits 9007199254740991))
  = of_Z 9007199254740991.
Proof.
  apply (proj1 (integerOrMinusOne_numeral 9007199254740991
                  ltac:(vm_compute; split; [discriminate | reflexivity]))).
Defined.

(** X21.  For a page and a page size written as decimal numerals of natural
    numbers below [2^53]: the page check fails exactly on zero, the check
    on the page size exactly on zero and on numbers above one hundred. *)
Theorem page_and_per_page_checks (req : Request) (z : Z) :
  0 <= z < 2 ^ 53 ->
  (query req !! "page" = Some (digits z) ->
   requestPage req = of_Z z
   /\ (In "expecting positive integer for 'page' parameter"
          (validationErrors req) <-> z = 0))
  /\ (query req !! "per-page" = Some (digits z) ->
      requestPerPage req = of_Z z
      /\ (In "expecting positive integer between 1 and 100 for 'per-page' parameter"
             (validationErrors req) <-> z = 0 \/ 100 < z)).
Proof.
  intros Hz. split; intros Hquery.
  - assert (Hpage : requestPage req = of_Z z).
    { unfold requestPage, queryParam. rewrite Hquery.
      now apply integerOrMinusOne_digits. }
    split; [exact Hpage |].
    unfold validationErrors. cbv zeta. rewrite failed_page.
    fold (requestPage req). rewrite Hpage, le_of_Z.
    destruct (Z.leb_spec z 0); split; intros; try lia; discriminate.
  - assert (HperPage : requestPerPage req = of_Z z).
    { unfold requestPerPage, queryParam. rewrite Hquery.
      now apply integerOrMinusOne_digits. }
    split; [exact HperPage |].
    unfold validationErrors. cbv zeta. rewrite failed_per_page.
    fold (requestPerPage req). rewrite HperPage, le_of_Z, gt_of_Z.
    destruct (Z.leb_spec z 0), (Z.ltb_spec 100 z); cbn;
      split; intros; try lia; try reflexivity; discriminate.
Qed.

Lemma page_and_per_page_checks_witness :
  In "expecting positive integer between 1 and 100 for 'per-page' parameter"
     (validationErrors (request [("per-page", "101")])).
Proof.
  apply (proj2 (proj2 (page_and_per_page_checks
                          (request [("per-page", "101")]) 101
                          ltac:(vm_compute; split; [discriminate | reflexivity]))
                  eq_refl)).
  right. reflexivity.
Defined.

(** ** The date normalizer and [toISOString] *)

Lemma pad_two_digits (n : Z) : 0 <= n < 100 -> JSDate.pad 2 n = two_digits n.
Proof.
  intros Hn. apply String.eqb_eq.
  apply (forall_range
           (fun n => String.eqb (JSDate.pad 2 n) (two_digits n)) 0 100);
    [vm_compute; reflexivity | lia].
Qed.

Lemma pad_four_digits (n : Z) :
  1000 <= n <= 9999 -> JSDate.pad 4 n = four_digits n.
Proof.
  intros Hn. unfold JSDate.pad.
  assert (Hsmall : 9999 < 10 ^ 21) by reflexivity.
  rewrite <- toString_of_Z by lia.
  rewrite toString_four_digits by exact Hn. reflexivity.
Qed.

(** X17.  For a date whose UTC year has four digits the normalizer agrees
    with [Date.prototype.toISOString]: the two results differ only by the
    point and the three digits of the milliseconds before the final [Z]. *)
Theorem toIsoStringWithoutMilliseconds_toISOString (t : Z) :
  1000 <= YearFromTime t <= 9999 ->
  exists prefix,
    toIsoStringWithoutMilliseconds (Some t) = prefix +:+ "Z"
    /\ toISOString (Some t)
       = Normal (prefix +:+ "." +:+ JSDate.pad 3 (msFromTime t) +:+ "Z").
Proof.
  intros Hyear.
  pose proof (MonthFromTime_range t). pose proof (DateFromTime_range t).
  pose proof (HourFromTime_range t). pose proof (MinFromTime_range t).
  pose proof (SecFromTime_range t).
  exists (four_digits (YearFromTime t) +:+ "-" +:+
          two_digits (MonthFromTime t + 1) +:+ "-" +:+
          two_digits (DateFromTime t) +:+ "T" +:+
          two_digits (HourFromTime t) +:+ ":" +:+
          two_digits (MinFromTime t) +:+ ":" +:+
          two_digits (SecFromTime t)).
  split.
  - rewrite toIsoStringWithoutMilliseconds_valid.
    rewrite toString_four_digits by exact Hyear. reflexivity.
  - unfold toISOString.
    replace ((0 <=? YearFromTime t) && (YearFromTime t <=? 9999))
      with true by (symmetry; apply andb_true_intro; split; lia).
    rewrite pad_four_digits by exact Hyear.
    rewrite !pad_two_digits by lia. reflexivity.
Qed.

Lemma toIsoStringWithoutMilliseconds_toISOString_witness :
  exists prefix,
    toIsoStringWithoutMilliseconds (Some 1682944245678) = prefix +:+ "Z"
    /\ toISOString (Some 1682944245678)
       = Normal (prefix +:+ "." +:+ JSDate.pad 3 (msFromTime 1682944245678)
                 +:+ "Z").
Proof.
  apply (toIsoStringWithoutMilliseconds_toISOString 1682944245678).
  vm_compute. split; discriminate.
Defined.
